(** * rss_to_printer: a shallow embedding of the RSS-to-printer digest script

    The script [rss_to_printer.py] picks a feed, fetches it, normalises the
    entries, lays them out on one A4 page and sends the page to a printer,
    every [INTERVAL_MINUTES] minutes.  This development embeds the script's
    functions ([fetch_feed], [format_entries], [print_to_printer],
    [save_as_pdf], [main]) and proves the properties of its specification.

    Python values are modelled as follows.
    - [str] is [string]; a dict read with [.get(key, default)] is a
      [gmap string string]; a dict built with the three literal keys
      ['title'], ['published'], ['summary'] is the record [Entry].
    - A call that may raise is an [outcome]: [Returned v] or [Raised e],
      where [e] ranges over instances of Python's [Exception], the class the
      script's [except Exception] clauses catch.
    - Console output, the spooler command, file writes and removals and the
      sleep are [event]s, collected in order by the [IO] monad.
    - Lengths (reportlab points) are rationals [Q]. *)

From Stdlib Require Import String Ascii List ZArith QArith Qminmax Lia Lqa Bool.
From Stdlib Require Import DecimalString.
From stdpp Require Import base option list strings gmap.

Open Scope string_scope.
Open Scope list_scope.

(** ** [html.escape] *)

Module Html.

Definition amp : ascii := "&"%char.
Definition lt : ascii := "<"%char.
Definition gt : ascii := ">"%char.
Definition dquote : ascii := "034"%char.
Definition squote : ascii := "'"%char.

(** [s.replace(old, new)] for a one-character [old]. *)
Fixpoint replace (old : ascii) (new : string) (s : string) : string :=
  match s with
  | EmptyString => EmptyString
  | String c r =>
      if Ascii.eqb c old then new +:+ replace old new r
      else String c (replace old new r)
  end.

(** [html.escape(s)], with its default [quote=True]: five replacements,
    the ampersand first. *)
Definition escape (s : string) : string :=
  let s := replace amp "&amp;" s in
  let s := replace lt "&lt;" s in
  let s := replace gt "&gt;" s in
  let s := replace dquote "&quot;" s in
  let s := replace squote "&#x27;" s in
  s.

(** What [escape] writes for one character. *)
Definition escape_char (c : ascii) : string :=
  if Ascii.eqb c amp then "&amp;"
  else if Ascii.eqb c lt then "&lt;"
  else if Ascii.eqb c gt then "&gt;"
  else if Ascii.eqb c dquote then "&quot;"
  else if Ascii.eqb c squote then "&#x27;"
  else String c "".

(** The characters that are markup to an HTML or reportlab parser. *)
Definition markup_significant (c : ascii) : bool :=
  Ascii.eqb c amp || Ascii.eqb c lt || Ascii.eqb c gt
  || Ascii.eqb c dquote || Ascii.eqb c squote.

Definition entities : list string :=
  ["&amp;"; "&lt;"; "&gt;"; "&quot;"; "&#x27;"].

(** A text has no unescaped markup-significant character when it has no
    [<], [>], double or single quote, and each [&] opens one of the five
    entities [escape] writes. *)
Fixpoint escaped (s : string) : bool :=
  match s with
  | EmptyString => true
  | String c r =>
      if Ascii.eqb c amp
      then existsb (fun e => String.prefix e s) entities && escaped r
      else negb (markup_significant c) && escaped r
  end.

(** [c] occurs in [s]. *)
Fixpoint occurs (c : ascii) (s : string) : bool :=
  match s with
  | EmptyString => false
  | String d r => Ascii.eqb d c || occurs c r
  end.

End Html.

Import Html.

(** ** The reportlab values the script builds *)

Module Reportlab.

#[local] Open Scope Q_scope.

(** [reportlab.lib.units]: lengths are in points. *)
Definition inch : Q := 72.
Definition mm : Q := inch / (254 # 10).

(** [reportlab.lib.pagesizes.A4] is [(210*mm, 297*mm)]. *)
Definition A4 : Q * Q := (210 * mm, 297 * mm).

(** A paragraph style: its name, the style it derives from and the
    attributes the script sets ([None]: inherited from the parent). *)
Record ParagraphStyle := {
  style_name : string;
  parent : option string;
  fontName : option string;
  fontSize : option Q;
  leading : option Q;
  spaceAfter : option Q;
  spaceBefore : option Q;
  textColor : option string;
  leftIndent : option Q
}.

(** An entry of [getSampleStyleSheet()], looked up by name. *)
Definition sample_style (name : string) : ParagraphStyle :=
  {| style_name := name; parent := None; fontName := None; fontSize := None;
     leading := None; spaceAfter := None; spaceBefore := None;
     textColor := None; leftIndent := None |}.

Inductive Flowable : Type :=
| Paragraph (text : string) (style : ParagraphStyle)
| Spacer (width height : Q).

(** The [mode] argument of [KeepInFrame]. *)
Inductive FitMode : Type := error | overflow | shrink | truncate.

Record KeepInFrame := {
  maxWidth : Q;
  maxHeight : Q;
  content : list Flowable;
  mergeSpace : Z;
  mode : FitMode
}.

Record SimpleDocTemplate := {
  filename : string;
  pagesize : Q * Q;
  leftMargin : Q;
  rightMargin : Q;
  topMargin : Q;
  bottomMargin : Q
}.

(** A flowable as drawn: the flowable and the height it occupies. *)
Definition Drawn : Type := (Flowable * Q)%type.

(** The page a [build] wrote: its template and what was drawn on it, top
    to bottom. *)
Record Document := {
  template : SimpleDocTemplate;
  drawn : list Drawn
}.

End Reportlab.

Import Reportlab.

(** ** Python outcomes and the [IO] monad *)

Module Py.

(** An instance of [Exception]: its class name and the text [str(e)]. *)
Record exn := Exn { exn_class : string; exn_text : string }.

Inductive outcome (A : Type) : Type :=
| Returned (a : A)
| Raised (e : exn).
Arguments Returned {A} a.
Arguments Raised {A} e.

(** What one run does to the outside world, in order. *)
Inductive event : Type :=
| Stdout (line : string)               (* print(...) *)
| Stderr (line : string)               (* print(..., file=sys.stderr) *)
| Spawn (argv : list string)           (* subprocess.run(argv, check=True) *)
| PdfBuilt (doc : Document)            (* the file doc.build wrote *)
| Remove (path : string)               (* os.remove(path) *)
| Slept (seconds : Z).                 (* time.sleep(seconds) *)

(** A computation: the events it emitted and how it ended.  The events
    emitted before an exception are kept. *)
Definition IO (A : Type) : Type := (list event * outcome A)%type.

Definition ret {A} (a : A) : IO A := ([], Returned a).
Definition raise {A} (e : exn) : IO A := ([], Raised e).
Definition emit (ev : event) : IO unit := ([ev], Returned tt).
Definition lift {A} (o : outcome A) : IO A := ([], o).

Definition bind {A B} (m : IO A) (k : A -> IO B) : IO B :=
  match m with
  | (t, Returned a) => let '(t', r) := k a in (t ++ t', r)
  | (t, Raised e) => (t, Raised e)
  end.

(** [try: m except Exception as e: h e] *)
Definition try_except {A} (m : IO A) (h : exn -> IO A) : IO A :=
  match m with
  | (t, Returned a) => (t, Returned a)
  | (t, Raised e) => let '(t', r) := h e in (t ++ t', r)
  end.

Definition events {A} (m : IO A) : list event := fst m.
Definition result {A} (m : IO A) : outcome A := snd m.

Definition print (line : string) : IO unit := emit (Stdout line).
Definition eprint (line : string) : IO unit := emit (Stderr line).

End Py.

Import Py.

#[global] Instance IO_ret : MRet IO := @ret.
#[global] Instance IO_bind : MBind IO := fun A B k m => bind m k.


(** ** Fitting a frame's content to the page *)

Module Layout.

#[local] Open Scope Q_scope.

(** The height reportlab gives a paragraph of a text in a style when it is
    wrapped at a width: font metrics and line breaking, which the script
    leaves to the library. *)
Definition Metrics : Type := string -> ParagraphStyle -> Q -> Q.

Definition flowable_height (metrics : Metrics) (width : Q) (f : Flowable) : Q :=
  match f with
  | Paragraph text style => metrics text style width
  | Spacer _ height => height
  end.

(** The content of a frame at its natural size. *)
Definition natural (metrics : Metrics) (width : Q) (items : list Flowable)
  : list Drawn :=
  map (fun f => (f, flowable_height metrics width f)) items.

Fixpoint total_height (ds : list Drawn) : Q :=
  match ds with
  | [] => 0
  | (_, h) :: rest => h + total_height rest
  end.

(** Modelled from the spec: [KeepInFrame] belongs to reportlab, whose code is
    not among the sources.  Section 4.4 step 3 gives the truncating fit: the
    items are taken from the top, and when the next one does not fit in what
    is left of the available height the content is cut there, trailing items
    dropped and the last partially fitting item clipped. *)
Fixpoint truncate_to (avail : Q) (ds : list Drawn) : list Drawn :=
  match ds with
  | [] => []
  | (f, h) :: rest =>
      if Qle_bool h avail then (f, h) :: truncate_to (avail - h) rest
      else if Qle_bool avail 0 then []
      else [(f, avail)]
  end.

(** Modelled from the spec: the four fitting modes of a frame whose natural
    height exceeds the available height, as section 4.4 step 3 names them:
    raise an error, overflow (draw everything), shrink to fit (scale every
    item alike), or truncate.  Content that fits is drawn as it is. *)
Definition fit (metrics : Metrics) (k : KeepInFrame) : outcome (list Drawn) :=
  let ds := natural metrics (maxWidth k) (content k) in
  if Qle_bool (total_height ds) (maxHeight k) then Returned ds
  else
    match mode k with
    | error => Raised (Exn "LayoutError" "content too large for frame")
    | overflow => Returned ds
    | shrink =>
        let scale := maxHeight k / total_height ds in
        Returned (map (fun d => (fst d, snd d * scale)) ds)
    | truncate => Returned (truncate_to (maxHeight k) ds)
    end.

(** The frames of a story drawn one after the other. *)
Fixpoint fit_story (metrics : Metrics) (story : list KeepInFrame)
  : outcome (list Drawn) :=
  match story with
  | [] => Returned []
  | k :: rest =>
      match fit metrics k with
      | Raised e => Raised e
      | Returned ds =>
          match fit_story metrics rest with
          | Raised e => Raised e
          | Returned ds' => Returned (ds ++ ds')
          end
      end
  end.

Definition rendered_height (doc : Document) : Q := total_height (drawn doc).

(** The flowables a document shows, top to bottom. *)
Definition shown (doc : Document) : list Flowable := map fst (drawn doc).

End Layout.

Import Layout.

(** ** The world one cycle runs in *)

(** What [feedparser.parse] returns: a dict-like object with a [bozo] flag, the
    exception behind it, and, under the key ['entries'], the entries, each a
    dict-like object read with [.get]. *)
Record FeedParserDict := {
  bozo : bool;
  bozo_exception : string;
  entries : option (list (gmap string string))
}.

(** How a spawned command ends: with an exit code, or not started at all. *)
Inductive spawned : Type :=
| Exited (code : Z)
| NotStarted (e : exn).

(** The answers of the outside world during one cycle. *)
Record Env := {
  random_index : nat;                          (* the draw of random.choice *)
  now : string;                                (* now().strftime(...) *)
  feedparser_parse : string -> outcome FeedParserDict;
  stylesheet_fault : option exn;               (* building the styles *)
  paragraph_fault : string -> option exn;      (* Paragraph(text, style) *)
  build_fault : SimpleDocTemplate -> option exn; (* writing the file *)
  metrics : Metrics;
  run_command : list string -> spawned;
  remove_fault : string -> option exn          (* os.remove(path) *)
}.

Definition fault (o : option exn) : IO unit :=
  match o with
  | Some e => raise e
  | None => mret tt
  end.

Definition show_Z (z : Z) : string := NilZero.string_of_int (Z.to_int z).

(** [str(argv)] for a list of strings. *)
Fixpoint show_items (argv : list string) : string :=
  match argv with
  | [] => ""
  | [a] => "'" +:+ a +:+ "'"
  | a :: rest => "'" +:+ a +:+ "', " +:+ show_items rest
  end.

(** [subprocess.run(argv, check=True)]: a command that cannot be started
    raises; so does, as [CalledProcessError], a non-zero exit status. *)
Definition subprocess_run_check (env : Env) (argv : list string) : IO unit :=
  emit (Spawn argv);;
  match run_command env argv with
  | NotStarted e => raise e
  | Exited code =>
      if Z.eqb code 0 then mret tt
      else raise (Exn "CalledProcessError"
                    ("Command '[" +:+ show_items argv
                     +:+ "]' returned non-zero exit status "
                     +:+ show_Z code +:+ "."))
  end.

Definition os_remove (env : Env) (path : string) : IO unit :=
  emit (Remove path);; fault (remove_fault env path).

(** [Paragraph(text, style)]: the constructor parses the text as markup. *)
Definition new_Paragraph (env : Env) (text : string) (style : ParagraphStyle)
  : IO Flowable :=
  fault (paragraph_fault env text);; mret (Paragraph text style).

(** [doc.build(elements)]: lays the story out and writes the file. *)
Definition build (env : Env) (doc : SimpleDocTemplate)
  (elements : list KeepInFrame) : IO unit :=
  ds ← lift (fit_story (metrics env) elements);
  fault (build_fault env doc);;
  emit (PdfBuilt {| template := doc; drawn := ds |}).

(** ** The script *)

(** The dicts the script builds, with the keys ['title'], ['published'] and
    ['summary']. *)
Record Entry := {
  title : string;
  published : string;
  summary : string
}.

Definition FEED_SOURCES : list (string * string) :=
  [ ("CNN Top Stories", "http://rss.cnn.com/rss/cnn_topstories.rss");
    ("Guardian World", "https://www.theguardian.com/world/rss");
    ("NOAA Climate Highlights",
     "https://www.climate.gov/feeds/news-features/highlights.rss");
    ("Civil Georgia", "https://civil.ge/feed");
    ("Fox News World", "https://moxie.foxnews.com/google-publisher/world.xml");
    ("Ars Technica", "https://feeds.arstechnica.com/arstechnica/technology-lab") ].
Definition PRINTER_NAME : string := "TS9500".
Definition INTERVAL_MINUTES : Z := 7.
Definition KEEP_PDF : bool := false.

(** [random.choice(seq)]: an element of a non-empty sequence, [IndexError] on
    an empty one. *)
Definition random_choice {A} (env : Env) (seq : list A) : IO A :=
  match seq !! (random_index env mod length seq)%nat with
  | Some x => mret x
  | None => raise (Exn "IndexError" "Cannot choose from an empty sequence")
  end.

Definition fetch_feed (env : Env) (url : string) : IO (option FeedParserDict) :=
  try_except
    (feed ← lift (feedparser_parse env url);
     if bozo feed then
       eprint ("Error parsing feed: " +:+ bozo_exception feed);;
       mret None
     else mret (Some feed))
    (fun e =>
       eprint ("Exception fetching feed: " +:+ exn_text e);;
       mret None).

(** The body of the [for entry in entries] loop of [format_entries]. *)
Definition format_entry (result : list Entry) (entry : gmap string string)
  : list Entry :=
  let title := default "No title" (entry !! "title") in
  let published := default "No date" (entry !! "published") in
  let summary := default "" (entry !! "summary") in
  result ++ [ {| title := escape title;
                 published := escape published;
                 summary := summary |} ].

Definition format_entries (feed : option FeedParserDict) : list Entry :=
  match feed with
  | None => []
  | Some feed =>
      match entries feed with
      | None => []
      | Some entries => fold_left format_entry entries []
      end
  end.

Definition print_to_printer (env : Env) (pdf_path printer_name : string)
  : IO unit :=
  try_except
    (subprocess_run_check env ["lpr"; "-P"; printer_name; pdf_path];;
     print ("Printed PDF " +:+ pdf_path +:+ " to " +:+ printer_name
            +:+ " successfully."))
    (fun e => eprint ("Printing failed: " +:+ exn_text e)).

Module Styles.

#[local] Open Scope Q_scope.

Definition title_style : ParagraphStyle :=
  {| style_name := "feedTitle"; parent := Some "Heading2";
     fontName := Some "Times-Roman"; fontSize := Some 17; leading := Some 21;
     spaceAfter := Some (3 * mm); spaceBefore := Some (2 * mm);
     textColor := Some "darkblue"; leftIndent := None |}.

Definition date_style : ParagraphStyle :=
  {| style_name := "feedDate"; parent := Some "Normal";
     fontName := Some "Times-Roman"; fontSize := Some 11; leading := Some 13;
     spaceAfter := None; spaceBefore := None;
     textColor := Some "darkgrey"; leftIndent := Some (2 * mm) |}.

Definition summary_style : ParagraphStyle :=
  {| style_name := "feedSummary"; parent := Some "Normal";
     fontName := Some "Times-Roman"; fontSize := Some 13; leading := Some 16;
     spaceAfter := Some 7; spaceBefore := None;
     textColor := None; leftIndent := Some (3 * mm) |}.

End Styles.

Import Styles.

(** The [for entry in entries] loop of [save_as_pdf], started with the
    [item_list] built so far. *)
Fixpoint item_loop (env : Env) (entries : list Entry) (item_list : list Flowable)
  : IO (list Flowable) :=
  match entries with
  | [] => mret item_list
  | entry :: rest =>
      p1 ← new_Paragraph env ("<b>" +:+ title entry +:+ "</b>") title_style;
      p2 ← new_Paragraph env (published entry) date_style;
      p3 ← new_Paragraph env (summary entry) summary_style;
      item_loop env rest (item_list ++ [p1; p2; p3; Spacer 1 6])
  end.

(** The four items the loop appends for an entry. *)
Definition entry_items (entry : Entry) : list Flowable :=
  [ Paragraph ("<b>" +:+ title entry +:+ "</b>") title_style;
    Paragraph (published entry) date_style;
    Paragraph (summary entry) summary_style;
    Spacer 1 6 ].

Definition no_entries : Flowable :=
  Paragraph "No entries found." (sample_style "Normal").

Definition pdf_name (env : Env) (directory : string) : string :=
  let timestamp := now env in
  directory +:+ "/rss_printout_" +:+ timestamp +:+ ".pdf".

Definition available (page : Q * Q) (margin : Q) : Q * Q :=
  let '(width, height) := page in
  let leftMargin := margin in
  let rightMargin := margin in
  let topMargin := margin in
  let bottomMargin := margin in
  let available_width := (width - leftMargin - rightMargin)%Q in
  let available_height := (height - topMargin - bottomMargin)%Q in
  (available_width, available_height).

(** The [try] block of [save_as_pdf]. *)
Definition save_as_pdf_try (page : Q * Q) (margin : Q)
  (env : Env) (entries : list Entry) (filename : string) : IO (option string) :=
  fault (stylesheet_fault env);;
  let '(available_width, available_height) := available page margin in
  item_list ← item_loop env entries [];
  item_list ←
    (match item_list with
     | [] =>
         p ← new_Paragraph env "No entries found." (sample_style "Normal");
         mret (item_list ++ [p])
     | _ => mret item_list
     end);
  let elements :=
    [ {| maxWidth := available_width; maxHeight := available_height;
         content := item_list; mergeSpace := 1; mode := truncate |} ] in
  let doc :=
    {| filename := filename; pagesize := page;
       leftMargin := margin; rightMargin := margin;
       topMargin := margin; bottomMargin := margin |} in
  build env doc elements;;
  print ("Saved PDF: " +:+ filename);;
  mret (Some filename).

(** [save_as_pdf], for any page size and margin; the script's page is A4
    with margins of 18 points. *)
Definition save_as_pdf_on (page : Q * Q) (margin : Q)
  (env : Env) (entries : list Entry) (directory : string) : IO (option string) :=
  let filename := pdf_name env directory in
  try_except
    (save_as_pdf_try page margin env entries filename)
    (fun e =>
       eprint ("Failed to save PDF: " +:+ exn_text e);;
       mret None).

(** What the [try] block builds when no reportlab call raises: the item
    list, the frame around it and the document template. *)
Definition item_list_of (entries : list Entry) : list Flowable :=
  match flat_map entry_items entries with
  | [] => [no_entries]
  | item_list => item_list
  end.

Definition frame_of (page : Q * Q) (margin : Q) (entries : list Entry)
  : KeepInFrame :=
  {| maxWidth := fst (available page margin);
     maxHeight := snd (available page margin);
     content := item_list_of entries; mergeSpace := 1; mode := truncate |}.

Definition template_of (page : Q * Q) (margin : Q) (filename : string)
  : SimpleDocTemplate :=
  {| filename := filename; pagesize := page;
     leftMargin := margin; rightMargin := margin;
     topMargin := margin; bottomMargin := margin |}.

(** reportlab takes the three texts of an entry as markup. *)
Definition accepted (env : Env) (entry : Entry) : Prop :=
  paragraph_fault env ("<b>" +:+ title entry +:+ "</b>") = None /\
  paragraph_fault env (published entry) = None /\
  paragraph_fault env (summary entry) = None.

(** No reportlab call of [save_as_pdf] raises on these entries. *)
Definition reportlab_works (env : Env) (entries : list Entry) : Prop :=
  stylesheet_fault env = None /\
  Forall (accepted env) entries /\
  paragraph_fault env "No entries found." = None /\
  forall doc, build_fault env doc = None.

Definition save_as_pdf (env : Env) (entries : list Entry) (directory : string)
  : IO (option string) :=
  save_as_pdf_on A4 18 env entries directory.

(** The entry [main] puts in front of the entries of the chosen feed. *)
Definition banner (chosen_fullname : string) : Entry :=
  {| title := "Feed Source: " +:+ chosen_fullname;
     published := "";
     summary := "" |}.

(** The sequence [main] hands to [save_as_pdf]. *)
Definition with_banner (chosen_fullname : string) (entries : list Entry)
  : list Entry :=
  match entries with
  | _ :: _ => [banner chosen_fullname] ++ entries
  | [] => [banner chosen_fullname]
  end.

(** [if pdf_path:] holds for a non-empty string, not for [None]. *)
Definition truthy (pdf_path : option string) : bool :=
  match pdf_path with
  | Some (String _ _) => true
  | _ => false
  end.

(** The first part of an iteration: choose a source, fetch it, and put
    the banner in front of its entries. *)
Definition gather (env : Env) : IO (list Entry) :=
  chosen ← random_choice env FEED_SOURCES;
  let '(chosen_fullname, chosen_feed_url) := chosen in
  print ("Fetching from: " +:+ chosen_feed_url +:+ " (" +:+ chosen_fullname
         +:+ ")");;
  feed ← fetch_feed env chosen_feed_url;
  let entries := format_entries feed in
  let entries := with_banner chosen_fullname entries in
  mret entries.

(** The [if pdf_path:] block: print, then delete the file. *)
Definition dispatch (env : Env) (pdf_path : option string) : IO unit :=
  if truthy pdf_path then
    let path := default "" pdf_path in
    print_to_printer env path PRINTER_NAME;;
    if negb KEEP_PDF then
      try_except
        (os_remove env path;;
         print ("Deleted PDF: " +:+ path))
        (fun e => eprint ("Failed to delete PDF: " +:+ exn_text e))
    else mret tt
  else mret tt.

(** One iteration of the [while True] loop of [main]. *)
Definition cycle (env : Env) : IO unit :=
  entries ← gather env;
  pdf_path ← save_as_pdf env entries ".";
  dispatch env pdf_path;;
  print ("Next run in " +:+ show_Z INTERVAL_MINUTES +:+ " minutes...");;
  emit (Slept (INTERVAL_MINUTES * 60)).

(** The iterations of the loop, one per environment. *)
Fixpoint loop (envs : list Env) : IO unit :=
  match envs with
  | [] => mret tt
  | env :: rest => cycle env;; loop rest
  end.

(** [main], as far as the loop has run. *)
Definition main (envs : list Env) : IO unit :=
  print "Starting RSS to printer script. Press Ctrl+C to stop.";;
  loop envs.

(** The number of sleeps in a trace: the iterations completed. *)
Fixpoint sleeps (t : list event) : nat :=
  match t with
  | [] => 0%nat
  | Slept _ :: rest => S (sleeps rest)
  | _ :: rest => sleeps rest
  end.

(** ** Sample worlds and inputs *)

Module Samples.

#[local] Open Scope Q_scope.

(** A simple text measure: no height for an empty text, otherwise one line
    of 14 points per 60 characters. *)
Definition line_metrics : Metrics :=
  fun text _ _ =>
    match text with
    | EmptyString => 0
    | _ => 14 * inject_Z (Z.of_nat (String.length text / 60 + 1))
    end.

Definition raw1 : gmap string string :=
  {[ "title" := "Rain & <wind>"; "published" := "Mon, 02 Nov";
     "summary" := "Storms <i>expected</i>." ]}.
Definition raw2 : gmap string string :=
  {[ "title" := "Quiet day" ]}.

Definition feed_ok : FeedParserDict :=
  {| bozo := false; bozo_exception := ""; entries := Some [raw1; raw2] |}.
Definition feed_bozo : FeedParserDict :=
  {| bozo := true; bozo_exception := "not well-formed"; entries := Some [raw1] |}.

(** A world in which everything works. *)
Definition calm : Env :=
  {| random_index := 1;
     now := "20240101_120000";
     feedparser_parse := fun _ => Returned feed_ok;
     stylesheet_fault := None;
     paragraph_fault := fun _ => None;
     build_fault := fun _ => None;
     metrics := line_metrics;
     run_command := fun _ => Exited 0;
     remove_fault := fun _ => None |}.

Definition with_parse (env : Env) (p : string -> outcome FeedParserDict) : Env :=
  {| random_index := random_index env; now := now env;
     feedparser_parse := p;
     stylesheet_fault := stylesheet_fault env;
     paragraph_fault := paragraph_fault env;
     build_fault := build_fault env; metrics := metrics env;
     run_command := run_command env; remove_fault := remove_fault env |}.

Definition with_command (env : Env) (c : list string -> spawned) : Env :=
  {| random_index := random_index env; now := now env;
     feedparser_parse := feedparser_parse env;
     stylesheet_fault := stylesheet_fault env;
     paragraph_fault := paragraph_fault env;
     build_fault := build_fault env; metrics := metrics env;
     run_command := c; remove_fault := remove_fault env |}.

Definition with_build_fault (env : Env) (b : SimpleDocTemplate -> option exn)
  : Env :=
  {| random_index := random_index env; now := now env;
     feedparser_parse := feedparser_parse env;
     stylesheet_fault := stylesheet_fault env;
     paragraph_fault := paragraph_fault env;
     build_fault := b; metrics := metrics env;
     run_command := run_command env; remove_fault := remove_fault env |}.

(** The network is down. *)
Definition offline : Env :=
  with_parse calm (fun _ => Raised (Exn "URLError" "network unreachable")).

(** The parser sets its error flag. *)
Definition malformed : Env := with_parse calm (fun _ => Returned feed_bozo).

(** The spooler command exits with status 1. *)
Definition jammed : Env := with_command calm (fun _ => Exited 1).

(** The output path cannot be written. *)
Definition readonly : Env :=
  with_build_fault calm
    (fun _ => Some (Exn "PermissionError" "[Errno 13] Permission denied")).

Definition entry (t d s : string) : Entry :=
  {| title := t; published := d; summary := s |}.

(** A long sequence: the banner and forty entries. *)
Definition long_entries : list Entry :=
  banner "Guardian World"
  :: repeat (entry "T" "D" "A summary of the story, long enough to read.") 40.

(** The scenario of section 8: the banner and two entries, on a page
    with room for the banner and one entry. *)
Definition two_entries : list Entry :=
  [banner "Guardian World"; entry "T1" "D1" "S1"; entry "T2" "D2" "S2"].
Definition small_page : Q * Q := (200, 104).

Definition with_paragraph_fault (env : Env) (f : string -> option exn) : Env :=
  {| random_index := random_index env; now := now env;
     feedparser_parse := feedparser_parse env;
     stylesheet_fault := stylesheet_fault env;
     paragraph_fault := f;
     build_fault := build_fault env; metrics := metrics env;
     run_command := run_command env; remove_fault := remove_fault env |}.

Definition with_remove_fault (env : Env) (f : string -> option exn) : Env :=
  {| random_index := random_index env; now := now env;
     feedparser_parse := feedparser_parse env;
     stylesheet_fault := stylesheet_fault env;
     paragraph_fault := paragraph_fault env;
     build_fault := build_fault env; metrics := metrics env;
     run_command := run_command env; remove_fault := f |}.

(** reportlab rejects one text as markup. *)
Definition picky : Env :=
  with_paragraph_fault calm
    (fun text =>
       if String.eqb text "<p>unclosed"
       then Some (Exn "ValueError" "Parse error: saw </para> instead of </p>")
       else None).

(** The spooler fails and the file cannot be removed. *)
Definition locked : Env :=
  with_remove_fault jammed
    (fun _ => Some (Exn "PermissionError" "[Errno 1] Operation not permitted")).

End Samples.

(** * Properties *)

(** Unfolds the operations of the [IO] monad. *)
Ltac io := unfold mbind, mret, IO_bind, IO_ret, bind, ret, raise, lift,
  try_except, print, eprint, emit, fault in *.

(** ** Escaping *)

Section EscapeFacts.

Lemma append_assoc (a b c : string) : (a +:+ b) +:+ c = a +:+ (b +:+ c).
Proof.
  induction a as [|x a IH]; [reflexivity |].
  change (String x ((a +:+ b) +:+ c) = String x (a +:+ (b +:+ c))).
  now f_equal.
Qed.

Lemma replace_append old new (a b : string) :
  replace old new (a +:+ b) = replace old new a +:+ replace old new b.
Proof.
  induction a as [|x a IH]; [reflexivity |].
  change (String x a +:+ b) with (String x (a +:+ b)).
  cbn [replace]. rewrite IH.
  destruct (Ascii.eqb x old); [| reflexivity].
  symmetry. apply append_assoc.
Qed.

Lemma escape_append (a b : string) : escape (a +:+ b) = escape a +:+ escape b.
Proof. unfold escape. now rewrite !replace_append. Qed.

Lemma escape_cons (c : ascii) (r : string) :
  escape (String c r) = escape (String c "") +:+ escape r.
Proof. now rewrite <- escape_append. Qed.

Lemma escape_one (c : ascii) : escape (String c "") = escape_char c.
Proof.
  destruct c as [[] [] [] [] [] [] [] []]; reflexivity.
Qed.

Lemma prefix_nil (t : string) : String.prefix "" t = true.
Proof. destruct t; reflexivity. Qed.

Lemma escaped_escape_char (c : ascii) (t : string) :
  escaped (escape_char c +:+ t) = escaped t.
Proof.
  destruct c as [[] [] [] [] [] [] [] []];
    cbv [escape_char Ascii.eqb Bool.eqb amp lt gt dquote squote String.append];
    cbn; rewrite ?prefix_nil; reflexivity.
Qed.

Lemma escaped_escape (s : string) : escaped (escape s) = true.
Proof.
  induction s as [|c r IH]; [reflexivity |].
  now rewrite escape_cons, escape_one, escaped_escape_char.
Qed.

(** The five characters do not occur raw in an escaped text, but for the
    ampersand of an entity. *)
Lemma escaped_no_raw (s : string) (c : ascii) :
  escaped s = true -> markup_significant c = true -> c <> amp ->
  occurs c s = false.
Proof.
  intros Hs Hc Hamp. induction s as [|d r IH]; [reflexivity |].
  simpl in Hs |- *.
  destruct (Ascii.eqb_spec d amp) as [->|Hd].
  - apply andb_true_iff in Hs as [_ Hr]. rewrite (IH Hr), orb_false_r.
    apply Ascii.eqb_neq. congruence.
  - apply andb_true_iff in Hs as [Hm Hr]. rewrite (IH Hr), orb_false_r.
    destruct (Ascii.eqb_spec d c) as [->|]; [| reflexivity].
    rewrite Hc in Hm. discriminate.
Qed.

End EscapeFacts.

(** ** Normalisation *)

Section FormatFacts.

Lemma fold_format_entry (raw : list (gmap string string)) (acc : list Entry) :
  fold_left format_entry raw acc = acc ++ concat (map (format_entry []) raw).
Proof.
  revert acc. induction raw as [|entry raw IH]; intros acc; simpl.
  - now rewrite app_nil_r.
  - rewrite IH. unfold format_entry. rewrite <- app_assoc. reflexivity.
Qed.

Lemma format_entries_lookup (b : bool) (bx : string)
  (raw : list (gmap string string)) (i : nat) :
  format_entries (Some {| bozo := b; bozo_exception := bx; entries := Some raw |}) !! i
  = (fun entry =>
       {| title := escape (default "No title" (entry !! "title"));
          published := escape (default "No date" (entry !! "published"));
          summary := default "" (entry !! "summary") |}) <$> raw !! i.
Proof.
  unfold format_entries. simpl. rewrite fold_format_entry. simpl.
  revert i. induction raw as [|entry raw IH]; intros i; [reflexivity |].
  destruct i as [|i]; [reflexivity |]. simpl. apply IH.
Qed.

Lemma format_entries_length (b : bool) (bx : string)
  (raw : list (gmap string string)) :
  length (format_entries
            (Some {| bozo := b; bozo_exception := bx; entries := Some raw |}))
  = length raw.
Proof.
  unfold format_entries. simpl. rewrite fold_format_entry. simpl.
  induction raw as [|entry raw IH]; [reflexivity |]. simpl. now rewrite IH.
Qed.

End FormatFacts.

(** C3: [format_entries] escapes the title and the date of every entry with
    [html.escape], so that neither holds a raw [<], [>] or quote and every
    [&] in them opens an entity; it hands the summary on unchanged; and the
    i-th normalised entry comes from the i-th raw entry. *)
Theorem format_entries_escapes (b : bool) (bx : string)
  (raw : list (gmap string string)) :
  let out :=
    format_entries
      (Some {| bozo := b; bozo_exception := bx; entries := Some raw |}) in
  length out = length raw /\
  forall (i : nat) (entry : gmap string string),
    raw !! i = Some entry ->
    exists e : Entry,
      out !! i = Some e /\
      title e = escape (default "No title" (entry !! "title")) /\
      published e = escape (default "No date" (entry !! "published")) /\
      summary e = default "" (entry !! "summary") /\
      escaped (title e) = true /\
      escaped (published e) = true /\
      forall c : ascii,
        markup_significant c = true -> c <> amp ->
        occurs c (title e) = false /\ occurs c (published e) = false.
Proof.
  intros out. split; [apply format_entries_length |].
  intros i entry Hi. subst out. rewrite format_entries_lookup, Hi. simpl.
  eexists. split; [reflexivity |]. simpl.
  repeat split; auto using escaped_escape, escaped_no_raw.
Qed.

(** On a feed with markup in a title, the title is escaped and the summary
    is not. *)
Lemma format_entries_escapes_witness :
  format_entries (Some Samples.feed_ok) !! 0%nat
  = Some {| title := "Rain &amp; &lt;wind&gt;"; published := "Mon, 02 Nov";
            summary := "Storms <i>expected</i>." |}
  /\ exists e : Entry,
      format_entries (Some Samples.feed_ok) !! 0%nat = Some e /\
      escaped (title e) = true /\ summary e = "Storms <i>expected</i>.".
Proof.
  split; [vm_compute; reflexivity |].
  destruct (format_entries_escapes false "" [Samples.raw1; Samples.raw2])
    as [_ H].
  destruct (H 0%nat Samples.raw1 eq_refl) as (e & He & _ & _ & Hs & Ht & _).
  exists e. split; [exact He |]. split; [exact Ht |]. rewrite Hs.
  vm_compute. reflexivity.
Defined.

(** ** Fetching *)

Section FetchFacts.

Lemma fetch_feed_cases (env : Env) (url : string) :
  match feedparser_parse env url with
  | Raised e =>
      fetch_feed env url
      = ([Stderr ("Exception fetching feed: " +:+ exn_text e)], Returned None)
  | Returned feed =>
      if bozo feed then
        fetch_feed env url
        = ([Stderr ("Error parsing feed: " +:+ bozo_exception feed)],
           Returned None)
      else fetch_feed env url = ([], Returned (Some feed))
  end.
Proof.
  unfold fetch_feed.
  destruct (feedparser_parse env url) as [feed|e]; simpl; [| reflexivity].
  destruct (bozo feed); reflexivity.
Qed.

Lemma fetch_feed_returns (env : Env) (url : string) :
  exists (t : list event) (r : option FeedParserDict),
    fetch_feed env url = (t, Returned r)
    /\ Forall (fun ev => exists line, ev = Stderr line) t.
Proof.
  pose proof (fetch_feed_cases env url) as H.
  destruct (feedparser_parse env url) as [feed|e].
  - destruct (bozo feed); rewrite H; eauto 8.
  - rewrite H; eauto 8.
Qed.

Lemma choice_in_range (env : Env) :
  exists name url : string,
    FEED_SOURCES !! (random_index env mod length FEED_SOURCES)%nat
    = Some (name, url).
Proof.
  assert (is_Some (FEED_SOURCES !! (random_index env mod length FEED_SOURCES)%nat))
    as [[name url] H].
  { apply lookup_lt_is_Some. apply Nat.mod_upper_bound. discriminate. }
  eauto.
Qed.

Lemma gather_spec (env : Env) :
  exists (name url : string) (feed : option FeedParserDict) (t : list event),
    FEED_SOURCES !! (random_index env mod length FEED_SOURCES)%nat
    = Some (name, url) /\
    fetch_feed env url = (t, Returned feed) /\
    Forall (fun ev => exists line, ev = Stderr line) t /\
    gather env
    = (Stdout ("Fetching from: " +:+ url +:+ " (" +:+ name +:+ ")") :: t,
       Returned (with_banner name (format_entries feed))).
Proof.
  destruct (choice_in_range env) as (name & url & Hc).
  destruct (fetch_feed_returns env url) as (t & feed & Hf & Ht).
  exists name, url, feed, t. repeat split; try assumption.
  unfold gather, random_choice. rewrite Hc. 
  unfold mbind, mret, IO_bind, IO_ret, bind, ret, print, emit. 
  rewrite Hf. simpl. now rewrite app_nil_r.
Qed.

Lemma with_banner_cons (name : string) (entries : list Entry) :
  with_banner name entries = banner name :: entries.
Proof. destruct entries; reflexivity. Qed.

End FetchFacts.

(** ** Truncation *)

Section TruncateFacts.

#[local] Open Scope Q_scope.

Lemma Qle_bool_false (x y : Q) : Qle_bool x y = false -> y < x.
Proof.
  intros H. apply Qnot_le_lt. intros Hle.
  apply Qle_bool_iff in Hle. congruence.
Qed.

(** What is drawn never exceeds the available height. *)
Lemma truncate_to_height (ds : list Drawn) (avail : Q) :
  0 <= avail -> total_height (truncate_to avail ds) <= avail.
Proof.
  revert avail. induction ds as [|[f h] ds IH]; intros avail Ha; simpl.
  - exact Ha.
  - destruct (Qle_bool h avail) eqn:Hh.
    + apply Qle_bool_iff in Hh. simpl.
      assert (0 <= avail - h) as Hrest by lra.
      specialize (IH _ Hrest). lra.
    + destruct (Qle_bool avail 0) eqn:H0; simpl; lra.
Qed.

(** The flowables drawn are the first ones of the content, in order. *)
Lemma truncate_to_prefix (ds : list Drawn) (avail : Q) :
  map fst (truncate_to avail ds)
  = take (length (truncate_to avail ds)) (map fst ds).
Proof.
  revert avail. induction ds as [|[f h] ds IH]; intros avail; simpl.
  - reflexivity.
  - destruct (Qle_bool h avail).
    + simpl. now rewrite <- IH.
    + destruct (Qle_bool avail 0); simpl; [reflexivity |].
      now rewrite take_0.
Qed.

(** All drawn items but the last have their natural height. *)
Lemma truncate_to_natural (ds : list Drawn) (avail : Q) :
  take (length (truncate_to avail ds) - 1) (truncate_to avail ds)
  = take (length (truncate_to avail ds) - 1) ds.
Proof.
  revert avail. induction ds as [|[f h] ds IH]; intros avail; simpl.
  - reflexivity.
  - destruct (Qle_bool h avail).
    + simpl. rewrite Nat.sub_0_r.
      specialize (IH (avail - h)).
      destruct (truncate_to (avail - h) ds) as [|d ds'] eqn:Ht.
      * reflexivity.
      * simpl in IH |- *. rewrite Nat.sub_0_r in IH. now rewrite IH.
    + destruct (Qle_bool avail 0); reflexivity.
Qed.

(** With room on the page, something is drawn. *)
Lemma truncate_to_nonempty (d : Drawn) (ds : list Drawn) (avail : Q) :
  0 < avail ->
  exists h rest, truncate_to avail (d :: ds) = (fst d, h) :: rest.
Proof.
  intros Ha. destruct d as [f h]. simpl.
  destruct (Qle_bool h avail); [eauto |].
  destruct (Qle_bool avail 0) eqn:H0; [| eauto].
  apply Qle_bool_iff in H0. lra.
Qed.

Lemma total_height_nonneg (ds : list Drawn) :
  Forall (fun d => 0 <= snd d) ds -> 0 <= total_height ds.
Proof.
  induction 1 as [|[f h] ds Hh _ IH]; simpl in *; lra.
Qed.

Lemma total_height_app (xs ys : list Drawn) :
  total_height (xs ++ ys) == total_height xs + total_height ys.
Proof.
  induction xs as [|[f h] xs IH]; simpl; [lra | rewrite IH; lra].
Qed.

(** Items that fit are drawn in full, and the rest is cut to what is left. *)
Lemma truncate_to_fits (xs ys : list Drawn) (avail : Q) :
  Forall (fun d => 0 <= snd d) xs ->
  total_height xs <= avail ->
  exists left : Q,
    left == avail - total_height xs /\
    truncate_to avail (xs ++ ys) = xs ++ truncate_to left ys.
Proof.
  intros Hxs. revert avail.
  induction Hxs as [|[f h] xs Hh Hxs IH]; intros avail Hfit; simpl in *.
  - exists avail. split; [lra | reflexivity].
  - pose proof (total_height_nonneg xs Hxs) as Hpos.
    assert (Qle_bool h avail = true) as -> by (apply Qle_bool_iff; lra).
    destruct (IH (avail - h)) as (left & Hleft & Heq); [lra |].
    exists left. split; [lra | now rewrite Heq].
Qed.

(** Past the point where the content no longer fits, nothing is drawn. *)
Lemma truncate_to_stops (ds : list Drawn) (avail : Q) (n : nat) :
  Forall (fun d => 0 <= snd d) ds ->
  avail < total_height (take n ds) ->
  (length (truncate_to avail ds) <= n)%nat.
Proof.
  intros Hds. revert avail n.
  induction Hds as [|[f h] ds Hh Hds IH]; intros avail n Hover; simpl in *.
  - lia.
  - destruct n as [|n]; simpl in Hover.
    + assert (Qle_bool h avail = false) as ->.
      { destruct (Qle_bool h avail) eqn:E; [| reflexivity].
        apply Qle_bool_iff in E. lra. }
      assert (Qle_bool avail 0 = true) as -> by (apply Qle_bool_iff; lra).
      simpl. lia.
    + destruct (Qle_bool h avail) eqn:E.
      * simpl. apply le_n_S. apply IH. lra.
      * destruct (Qle_bool avail 0); simpl; lia.
Qed.

Lemma natural_nonneg (m : Metrics) (width : Q) (items : list Flowable) :
  (forall text style w, 0 <= m text style w) ->
  Forall (fun f => match f with Spacer _ h => 0 <= h | _ => True end) items ->
  Forall (fun d => 0 <= snd d) (natural m width items).
Proof.
  intros Hm Hs. unfold natural. apply Forall_map.
  eapply Forall_impl; [exact Hs |].
  intros [text style|w h] H; simpl; auto.
Qed.

Lemma natural_take (m : Metrics) (width : Q) (items : list Flowable) (n : nat) :
  natural m width (take n items) = take n (natural m width items).
Proof. unfold natural. now rewrite <- fmap_take. Qed.

Lemma natural_shown (m : Metrics) (width : Q) (items : list Flowable) :
  map fst (natural m width items) = items.
Proof.
  unfold natural. rewrite map_map. simpl. apply map_id.
Qed.

End TruncateFacts.

(** ** Building the document *)

Section SaveFacts.

#[local] Open Scope Q_scope.

Lemma item_loop_cases (env : Env) (entries : list Entry) (acc : list Flowable) :
  (exists e, item_loop env entries acc = ([], Raised e)) \/
  item_loop env entries acc = ([], Returned (acc ++ flat_map entry_items entries)).
Proof.
  revert acc. induction entries as [|entry rest IH]; intros acc; simpl.
  - right. now rewrite app_nil_r.
  - unfold new_Paragraph. io.
    destruct (paragraph_fault env _) as [e|]; simpl; [eauto |].
    destruct (paragraph_fault env (published entry)) as [e|]; simpl; [eauto |].
    destruct (paragraph_fault env (summary entry)) as [e|]; simpl; [eauto |].
    destruct (IH (acc ++ entry_items entry)) as [[e He]|He];
      unfold entry_items in He; rewrite He; simpl; [eauto |].
    right. now rewrite <- app_assoc.
Qed.

Lemma item_loop_accepted (env : Env) (entries : list Entry) (acc : list Flowable) :
  Forall (accepted env) entries ->
  item_loop env entries acc = ([], Returned (acc ++ flat_map entry_items entries)).
Proof.
  intros H. revert acc.
  induction H as [|entry rest (Ht & Hp & Hs) _ IH]; intros acc; simpl.
  - now rewrite app_nil_r.
  - unfold new_Paragraph. io. rewrite Ht, Hp, Hs. simpl.
    specialize (IH (acc ++ entry_items entry)). unfold entry_items in IH.
    rewrite IH. simpl. now rewrite <- app_assoc.
Qed.

(** A truncating frame is drawn whatever the height of its content. *)
Lemma fit_truncate (m : Metrics) (k : KeepInFrame) :
  mode k = truncate ->
  fit m k
  = Returned
      (if Qle_bool (total_height (natural m (maxWidth k) (content k)))
            (maxHeight k)
       then natural m (maxWidth k) (content k)
       else truncate_to (maxHeight k) (natural m (maxWidth k) (content k))).
Proof.
  intros Hm. unfold fit. rewrite Hm.
  now destruct (Qle_bool _ _).
Qed.

Lemma fit_truncate_height (m : Metrics) (k : KeepInFrame) (ds : list Drawn) :
  mode k = truncate -> 0 <= maxHeight k ->
  fit m k = Returned ds -> total_height ds <= maxHeight k.
Proof.
  intros Hm Hpos. rewrite fit_truncate by assumption.
  destruct (Qle_bool _ _) eqn:E; intros [= <-].
  - now apply Qle_bool_iff.
  - now apply truncate_to_height.
Qed.

Lemma build_frame (env : Env) (doc : SimpleDocTemplate) (k : KeepInFrame) :
  mode k = truncate ->
  exists ds,
    fit (metrics env) k = Returned ds /\
    build env doc [k]
    = match build_fault env doc with
      | Some e => ([], Raised e)
      | None => ([PdfBuilt {| template := doc; drawn := ds |}], Returned tt)
      end.
Proof.
  intros Hm. eexists. split; [apply fit_truncate, Hm |].
  unfold build. simpl. rewrite fit_truncate by assumption. io. simpl.
  rewrite app_nil_r. now destruct (build_fault env doc).
Qed.

Lemma item_list_of_cases (entries : list Entry) :
  match flat_map entry_items entries with
  | [] => item_list_of entries = [no_entries]
  | item_list => item_list_of entries = item_list
  end.
Proof. unfold item_list_of. now destruct (flat_map entry_items entries). Qed.

Lemma save_as_pdf_try_cases (page : Q * Q) (margin : Q) (env : Env)
  (entries : list Entry) (fn : string) :
  (exists e, save_as_pdf_try page margin env entries fn = ([], Raised e)) \/
  (exists ds,
     fit (metrics env) (frame_of page margin entries) = Returned ds /\
     save_as_pdf_try page margin env entries fn
     = ([PdfBuilt {| template := template_of page margin fn; drawn := ds |};
         Stdout ("Saved PDF: " +:+ fn)],
        Returned (Some fn))).
Proof.
  unfold save_as_pdf_try, frame_of. destruct page as [width height].
  unfold available. cbn [fst snd].
  pose proof (item_list_of_cases entries) as Hitems.
  destruct (stylesheet_fault env) as [e|]; [left; eauto |].
  destruct (item_loop_cases env entries []) as [[e He]|He].
  { left. exists e. io. simpl. now rewrite He. }
  simpl in He.
  destruct (flat_map entry_items entries) as [|item rest] eqn:Hflat.
  - destruct (paragraph_fault env "No entries found.") as [e|] eqn:Hp.
    { left. exists e. io. simpl. rewrite He. simpl.
      unfold new_Paragraph. io. now rewrite Hp. }
    rewrite Hitems.
    edestruct (build_frame env (template_of (width, height) margin fn))
      as (ds & Hfit & Hb); [| rewrite Hfit].
    { reflexivity. }
    destruct (build_fault env (template_of (width, height) margin fn))
      as [e|] eqn:Hbf.
    { left. exists e. io. simpl. rewrite He. simpl.
      unfold new_Paragraph. io. rewrite Hp. simpl.
      unfold template_of, no_entries in Hb. io. now rewrite Hb. }
    right. eexists. split; [reflexivity |].
    io. simpl. rewrite He. simpl.
    unfold new_Paragraph. io. rewrite Hp. simpl.
    unfold template_of, no_entries in Hb. io. now rewrite Hb.
  - rewrite Hitems.
    edestruct (build_frame env (template_of (width, height) margin fn))
      as (ds & Hfit & Hb); [| rewrite Hfit].
    { reflexivity. }
    destruct (build_fault env (template_of (width, height) margin fn))
      as [e|] eqn:Hbf.
    { left. exists e. io. simpl. rewrite He. simpl.
      unfold template_of in Hb. io. now rewrite Hb. }
    right. eexists. split; [reflexivity |].
    io. simpl. rewrite He. simpl.
    unfold template_of in Hb. io. now rewrite Hb.
Qed.

Lemma save_as_pdf_try_works (page : Q * Q) (margin : Q) (env : Env)
  (entries : list Entry) (fn : string) :
  reportlab_works env entries ->
  exists ds,
    fit (metrics env) (frame_of page margin entries) = Returned ds /\
    save_as_pdf_try page margin env entries fn
    = ([PdfBuilt {| template := template_of page margin fn; drawn := ds |};
        Stdout ("Saved PDF: " +:+ fn)],
       Returned (Some fn)).
Proof.
  intros (Hs & Ha & Hp & Hb).
  destruct (save_as_pdf_try_cases page margin env entries fn)
    as [[e He]|H]; [exfalso | exact H].
  revert He. unfold save_as_pdf_try. destruct page as [width height].
  unfold available. rewrite Hs. io. simpl.
  rewrite (item_loop_accepted env entries [] Ha). simpl.
  destruct (flat_map entry_items entries) as [|item rest].
  - unfold new_Paragraph. io. rewrite Hp. simpl.
    unfold build. simpl. rewrite fit_truncate by reflexivity. io.
    rewrite Hb. simpl. discriminate.
  - unfold build. simpl. rewrite fit_truncate by reflexivity. io.
    rewrite Hb. simpl. discriminate.
Qed.

(** [save_as_pdf] returns, with a file name or with [None]. *)
Lemma save_as_pdf_on_cases (page : Q * Q) (margin : Q) (env : Env)
  (entries : list Entry) (dir : string) :
  (exists e,
     save_as_pdf_try page margin env entries (pdf_name env dir) = ([], Raised e) /\
     save_as_pdf_on page margin env entries dir
     = ([Stderr ("Failed to save PDF: " +:+ exn_text e)], Returned None)) \/
  (exists ds,
     fit (metrics env) (frame_of page margin entries) = Returned ds /\
     save_as_pdf_on page margin env entries dir
     = ([PdfBuilt {| template := template_of page margin (pdf_name env dir);
                     drawn := ds |};
         Stdout ("Saved PDF: " +:+ pdf_name env dir)],
        Returned (Some (pdf_name env dir)))).
Proof.
  unfold save_as_pdf_on.
  destruct (save_as_pdf_try_cases page margin env entries (pdf_name env dir))
    as [[e He]|(ds & Hfit & He)]; rewrite He.
  - left. exists e. split; reflexivity.
  - right. exists ds. split; [exact Hfit | reflexivity].
Qed.

Lemma save_as_pdf_on_works (page : Q * Q) (margin : Q) (env : Env)
  (entries : list Entry) (dir : string) :
  reportlab_works env entries ->
  exists ds,
    fit (metrics env) (frame_of page margin entries) = Returned ds /\
    save_as_pdf_on page margin env entries dir
    = ([PdfBuilt {| template := template_of page margin (pdf_name env dir);
                    drawn := ds |};
        Stdout ("Saved PDF: " +:+ pdf_name env dir)],
       Returned (Some (pdf_name env dir))).
Proof.
  intros H. unfold save_as_pdf_on.
  destruct (save_as_pdf_try_works page margin env entries (pdf_name env dir) H)
    as (ds & Hfit & He).
  rewrite He. exists ds. split; [exact Hfit | reflexivity].
Qed.

End SaveFacts.

(** ** The item list *)

Section ItemFacts.

Lemma flat_map_items_length (entries : list Entry) :
  length (flat_map entry_items entries) = (4 * length entries)%nat.
Proof.
  induction entries as [|e rest IH]; [reflexivity |].
  cbn [flat_map]. rewrite length_app, IH. simpl. lia.
Qed.

Lemma flat_map_items_lookup (entries : list Entry) (i k : nat) (e : Entry) :
  entries !! i = Some e -> (k < 4)%nat ->
  flat_map entry_items entries !! (4 * i + k)%nat = entry_items e !! k.
Proof.
  revert i. induction entries as [|e' rest IH]; intros i Hi Hk; [discriminate |].
  cbn [flat_map]. destruct i as [|i].
  - injection Hi as ->. rewrite lookup_app_l; [reflexivity | simpl; lia].
  - rewrite lookup_app_r by (simpl; lia).
    replace (4 * S i + k - length (entry_items e'))%nat with (4 * i + k)%nat
      by (simpl; lia).
    apply IH; [exact Hi | exact Hk].
Qed.

Lemma flat_map_items_take (entries : list Entry) (K : nat) :
  take (4 * K) (flat_map entry_items entries)
  = flat_map entry_items (take K entries).
Proof.
  revert K. induction entries as [|e rest IH]; intros K.
  - cbn [flat_map]. rewrite !take_nil. reflexivity.
  - destruct K as [|K]; [reflexivity |].
    replace (4 * S K)%nat with (4 + 4 * K)%nat by lia.
    cbn [take flat_map]. rewrite <- IH. reflexivity.
Qed.

Lemma item_list_of_cons (e : Entry) (rest : list Entry) :
  item_list_of (e :: rest) = flat_map entry_items (e :: rest).
Proof. reflexivity. Qed.

End ItemFacts.

(** C4: for entries reportlab accepts, the loop of [save_as_pdf] builds an
    item list of four items per entry, in the order of the entries: the title
    in bold, the published date, the summary (either may be empty) and a
    spacer of 6 points; that list is the content of the frame. *)
Theorem four_items_per_entry (env : Env) (entries : list Entry) :
  Forall (accepted env) entries ->
  exists item_list : list Flowable,
    item_loop env entries [] = ([], Returned item_list) /\
    length item_list = (4 * length entries)%nat /\
    (entries <> [] -> item_list_of entries = item_list) /\
    forall (i : nat) (entry : Entry),
      entries !! i = Some entry ->
      item_list !! (4 * i)%nat
      = Some (Paragraph ("<b>" +:+ title entry +:+ "</b>") title_style) /\
      item_list !! (4 * i + 1)%nat
      = Some (Paragraph (published entry) date_style) /\
      item_list !! (4 * i + 2)%nat
      = Some (Paragraph (summary entry) summary_style) /\
      item_list !! (4 * i + 3)%nat = Some (Spacer 1 6).
Proof.
  intros Hacc. exists (flat_map entry_items entries).
  split; [apply (item_loop_accepted env entries [] Hacc) |].
  split; [apply flat_map_items_length |].
  split; [destruct entries; [congruence | reflexivity] |].
  intros i entry Hi.
  rewrite <- (Nat.add_0_r (4 * i)) at 1.
  rewrite !(flat_map_items_lookup entries i _ entry Hi) by lia.
  repeat split.
Qed.

(** Two entries with the same title give eight items, nothing merged. *)
Lemma four_items_per_entry_witness :
  exists item_list : list Flowable,
    item_loop Samples.calm
      [Samples.entry "T" "D1" "S1"; Samples.entry "T" "" ""] []
    = ([], Returned item_list) /\
    length item_list = 8%nat /\
    item_list !! 4%nat = Some (Paragraph "<b>T</b>" title_style) /\
    item_list !! 5%nat = Some (Paragraph "" date_style).
Proof.
  destruct (four_items_per_entry Samples.calm
              [Samples.entry "T" "D1" "S1"; Samples.entry "T" "" ""])
    as (item_list & Hloop & Hlen & _ & Hat).
  { repeat constructor. }
  exists item_list. split; [exact Hloop |]. split; [exact Hlen |].
  destruct (Hat 1%nat (Samples.entry "T" "" "") eq_refl) as (H0 & H1 & _).
  split; [exact H0 | exact H1].
Defined.

(** C5: given no entries, [save_as_pdf] puts the one paragraph
    [No entries found.] in the item list, and the document it writes shows
    that paragraph and nothing else. *)
Theorem empty_input_placeholder (page : Q * Q) (margin : Q) (env : Env)
  (dir : string) :
  (0 < snd (available page margin))%Q ->
  reportlab_works env [] ->
  item_list_of [] = [Paragraph "No entries found." (sample_style "Normal")] /\
  exists doc : Document,
    save_as_pdf_on page margin env [] dir
    = ([PdfBuilt doc; Stdout ("Saved PDF: " +:+ pdf_name env dir)],
       Returned (Some (pdf_name env dir))) /\
    content (frame_of page margin [])
    = [Paragraph "No entries found." (sample_style "Normal")] /\
    shown doc = [Paragraph "No entries found." (sample_style "Normal")].
Proof.
  intros Hpos Hworks. split; [reflexivity |].
  destruct (save_as_pdf_on_works page margin env [] dir Hworks)
    as (ds & Hfit & Hsave).
  eexists. split; [exact Hsave |]. split; [reflexivity |].
  rewrite fit_truncate in Hfit by reflexivity.
  injection Hfit as <-. unfold shown. cbn [drawn].
  destruct (Qle_bool _ _); [reflexivity |].
  cbn [frame_of content maxHeight maxWidth item_list_of flat_map natural map
       truncate_to].
  destruct (Qle_bool _ _); [reflexivity |].
  destruct (Qle_bool (snd (available page margin)) 0) eqn:H0; [| reflexivity].
  apply Qle_bool_iff in H0. lra.
Qed.

(** On the script's A4 page, in a world where everything works. *)
Lemma empty_input_placeholder_witness :
  exists doc : Document,
    save_as_pdf Samples.calm [] "."
    = ([PdfBuilt doc; Stdout "Saved PDF: ./rss_printout_20240101_120000.pdf"],
       Returned (Some "./rss_printout_20240101_120000.pdf")) /\
    shown doc = [Paragraph "No entries found." (sample_style "Normal")].
Proof.
  destruct (empty_input_placeholder A4 18 Samples.calm ".")
    as (_ & doc & Hsave & _ & Hshown).
  { reflexivity. }
  { repeat split; constructor. }
  exists doc. split; [exact Hsave | exact Hshown].
Defined.

(** C1: for every page with a positive available width and height and for
    every sequence of entries, a document [save_as_pdf] writes is never
    higher than the available height; and when no reportlab call fails a
    document is written, however high the content: it is on the page asked
    for, what is drawn fits the available height, and every drawn item but
    the last keeps its natural height (the content is cut, not scaled). *)
Theorem single_page (page : Q * Q) (margin : Q) (env : Env)
  (entries : list Entry) (dir : string) :
  (0 < fst (available page margin))%Q ->
  (0 < snd (available page margin))%Q ->
  (forall doc : Document,
     In (PdfBuilt doc) (events (save_as_pdf_on page margin env entries dir)) ->
     (rendered_height doc <= snd (available page margin))%Q) /\
  (reportlab_works env entries ->
   exists doc : Document,
     save_as_pdf_on page margin env entries dir
     = ([PdfBuilt doc; Stdout ("Saved PDF: " +:+ pdf_name env dir)],
        Returned (Some (pdf_name env dir))) /\
     template doc = template_of page margin (pdf_name env dir) /\
     (rendered_height doc <= snd (available page margin))%Q /\
     take (length (drawn doc) - 1) (drawn doc)
     = take (length (drawn doc) - 1)
         (natural (metrics env) (fst (available page margin))
            (item_list_of entries))).
Proof.
  intros _ Hpos.
  assert (forall ds,
            fit (metrics env) (frame_of page margin entries) = Returned ds ->
            (total_height ds <= snd (available page margin))%Q) as Hheight.
  { intros ds Hfit.
    apply (fit_truncate_height (metrics env) (frame_of page margin entries));
      [reflexivity | simpl; lra | exact Hfit]. }
  split.
  - intros doc Hin.
    destruct (save_as_pdf_on_cases page margin env entries dir)
      as [(e & _ & Hsave)|(ds & Hfit & Hsave)]; rewrite Hsave in Hin;
      simpl in Hin.
    + destruct Hin as [Hin|[]]. discriminate.
    + destruct Hin as [Hin|[Hin|[]]]; [| discriminate].
      injection Hin as <-. apply Hheight, Hfit.
  - intros Hworks.
    destruct (save_as_pdf_on_works page margin env entries dir Hworks)
      as (ds & Hfit & Hsave).
    eexists. split; [exact Hsave |]. split; [reflexivity |].
    split; [apply Hheight, Hfit |].
    rewrite fit_truncate in Hfit by reflexivity.
    injection Hfit as <-. cbn [drawn frame_of maxWidth maxHeight content].
    destruct (Qle_bool _ _); [reflexivity |].
    apply truncate_to_natural.
Qed.

(** Forty-one entries on the script's A4 page: 70 of the 164 items are
    drawn, within the available height. *)
Lemma single_page_witness :
  (0 < fst (available A4 18))%Q /\
  (0 < snd (available A4 18))%Q /\
  reportlab_works Samples.calm Samples.long_entries /\
  exists doc : Document,
    save_as_pdf Samples.calm Samples.long_entries "."
    = ([PdfBuilt doc; Stdout "Saved PDF: ./rss_printout_20240101_120000.pdf"],
        Returned (Some "./rss_printout_20240101_120000.pdf")) /\
    (rendered_height doc <= snd (available A4 18))%Q /\
    length (drawn doc) = 70%nat /\
    length (item_list_of Samples.long_entries) = 164%nat.
Proof.
  assert (reportlab_works Samples.calm Samples.long_entries) as Hworks.
  { repeat split; try reflexivity.
    apply Forall_forall. intros e _. repeat split. }
  split; [reflexivity |]. split; [reflexivity |]. split; [exact Hworks |].
  destruct (single_page A4 18 Samples.calm Samples.long_entries ".")
    as [_ H]; [reflexivity | reflexivity |].
  destruct (H Hworks) as (doc & Hsave & _ & Hh & _).
  exists doc. split; [exact Hsave |]. split; [exact Hh |].
  split; [| reflexivity].
  assert (length (drawn doc)
          = match
              events (save_as_pdf Samples.calm Samples.long_entries ".")
            with
            | PdfBuilt d :: _ => length (drawn d)
            | _ => 0%nat
            end) as ->
    by (unfold save_as_pdf; rewrite Hsave; reflexivity).
  vm_compute. reflexivity.
Defined.

(** ** What the page shows *)

Section PageFacts.

#[local] Open Scope Q_scope.

Lemma truncate_to_all (ds : list Drawn) (avail : Q) :
  Forall (fun d => 0 <= snd d) ds ->
  total_height ds <= avail ->
  truncate_to avail ds = ds.
Proof.
  intros Hds Hfit.
  destruct (truncate_to_fits ds [] avail Hds Hfit) as (left & _ & H).
  rewrite app_nil_r in H. rewrite H. simpl. apply app_nil_r.
Qed.

Lemma truncate_to_take (ds : list Drawn) (avail : Q) (n : nat) :
  Forall (fun d => 0 <= snd d) ds ->
  total_height (take n ds) <= avail ->
  take n (truncate_to avail ds) = take n ds.
Proof.
  intros Hds Hfit.
  destruct (truncate_to_fits (take n ds) (drop n ds) avail) as (left & _ & H).
  { now apply Forall_take. }
  { exact Hfit. }
  rewrite take_drop in H. rewrite H.
  destruct (Nat.le_gt_cases n (length ds)) as [Hn|Hn].
  - apply take_app_length'. rewrite length_take. lia.
  - rewrite (drop_ge ds n) by lia. simpl. rewrite app_nil_r.
    rewrite take_take. f_equal. lia.
Qed.

Lemma truncate_to_lookup (ds : list Drawn) (avail : Q) (n : nat) :
  (n + 1 < length (truncate_to avail ds))%nat ->
  truncate_to avail ds !! n = ds !! n.
Proof.
  intros Hn.
  rewrite <- (lookup_take_lt (truncate_to avail ds)
                (length (truncate_to avail ds) - 1) n) by lia.
  rewrite truncate_to_natural. apply lookup_take_lt. lia.
Qed.

Lemma entry_items_spacers (entries : list Entry) :
  Forall (fun f => match f with Spacer _ h => 0 <= h | _ => True end)
    (flat_map entry_items entries).
Proof.
  induction entries as [|e rest IH]; [constructor |].
  cbn [flat_map]. apply Forall_app. split; [| exact IH].
  repeat constructor. simpl. lra.
Qed.

(** With heights that are not negative, the frame of [save_as_pdf] draws
    the truncation of its content, also when all of it fits. *)
Lemma fit_frame (page : Q * Q) (margin : Q) (env : Env) (e : Entry)
  (rest : list Entry) :
  (forall text style w, 0 <= metrics env text style w) ->
  fit (metrics env) (frame_of page margin (e :: rest))
  = Returned
      (truncate_to (snd (available page margin))
         (natural (metrics env) (fst (available page margin))
            (flat_map entry_items (e :: rest)))).
Proof.
  intros Hm. rewrite fit_truncate by reflexivity.
  cbn [frame_of maxWidth maxHeight content]. rewrite item_list_of_cons.
  destruct (Qle_bool _ _) eqn:E; [| reflexivity].
  apply Qle_bool_iff in E. rewrite truncate_to_all; [reflexivity | | exact E].
  apply natural_nonneg; [exact Hm | apply entry_items_spacers].
Qed.

End PageFacts.

(** C2: with the banner first and heights that are not negative, the page
    shows a prefix of the item list, in its order, starting with the title
    of the banner as soon as there is room at all; every item but the last
    is drawn in full, so an entry shows only after every entry before it is
    drawn in full; the first K entries are drawn in full whenever they fit;
    and nothing is drawn past the first K entries when they do not fit. *)
Theorem truncation_follows_entry_order (page : Q * Q) (margin : Q) (env : Env)
  (name : string) (rest : list Entry) (dir : string) :
  let entries := banner name :: rest in
  let width := fst (available page margin) in
  let avail := snd (available page margin) in
  let sized := fun es => natural (metrics env) width (flat_map entry_items es) in
  (0 < avail)%Q ->
  (forall text style w, (0 <= metrics env text style w)%Q) ->
  reportlab_works env entries ->
  exists doc : Document,
    save_as_pdf_on page margin env entries dir
    = ([PdfBuilt doc; Stdout ("Saved PDF: " +:+ pdf_name env dir)],
       Returned (Some (pdf_name env dir))) /\
    shown doc = take (length (shown doc)) (flat_map entry_items entries) /\
    hd_error (shown doc)
    = Some (Paragraph ("<b>Feed Source: " +:+ name +:+ "</b>") title_style) /\
    (forall n : nat,
       (n + 1 < length (drawn doc))%nat -> drawn doc !! n = sized entries !! n) /\
    (forall (i j k : nat) (e : Entry),
       (i < j)%nat -> (4 * j < length (drawn doc))%nat -> (k < 4)%nat ->
       entries !! i = Some e ->
       drawn doc !! (4 * i + k)%nat = sized [e] !! k) /\
    (forall K : nat,
       (total_height (sized (take K entries)) <= avail)%Q ->
       take (4 * K) (drawn doc) = sized (take K entries)) /\
    (forall K : nat,
       (avail < total_height (sized (take K entries)))%Q ->
       (length (drawn doc) <= 4 * K)%nat).
Proof.
  intros entries width avail sized Hpos Hm Hworks.
  destruct (save_as_pdf_on_works page margin env entries dir Hworks)
    as (ds & Hfit & Hsave).
  assert (ds = truncate_to avail (sized entries)) as ->.
  { unfold entries in Hfit. rewrite fit_frame in Hfit by exact Hm.
    symmetry. exact (f_equal (fun o => match o with
                                      | Returned x => x
                                      | Raised _ => ds
                                      end) Hfit). }
  clear Hfit.
  assert (Forall (fun d => (0 <= snd d)%Q) (sized entries)) as Hnonneg.
  { apply natural_nonneg; [exact Hm | apply entry_items_spacers]. }
  assert (forall K, sized (take K entries) = take (4 * K) (sized entries))
    as Htake.
  { intros K. unfold sized. now rewrite <- flat_map_items_take, natural_take. }
  eexists. split; [exact Hsave |]. unfold shown. cbn [drawn].
  split; [| split; [| split; [| split; [| split]]]].
  - rewrite length_map, truncate_to_prefix.
    unfold sized. now rewrite natural_shown.
  - destruct (truncate_to_nonempty
                (Paragraph ("<b>Feed Source: " +:+ name +:+ "</b>") title_style,
                 metrics env ("<b>Feed Source: " +:+ name +:+ "</b>")
                   title_style width)
                (tl (sized entries)) avail Hpos) as (h & tail & Ht).
    change (truncate_to avail (sized entries) = (Paragraph ("<b>Feed Source: " +:+ name +:+ "</b>") title_style, h) :: tail) in Ht.
    now rewrite Ht.
  - intros n Hn. now apply truncate_to_lookup.
  - intros i j k e Hij Hj Hk He.
    rewrite truncate_to_lookup by lia.
    unfold sized, natural. rewrite !list_lookup_fmap.
    rewrite (flat_map_items_lookup entries i k e He Hk).
    cbn [flat_map]. now rewrite app_nil_r.
  - intros K HK. rewrite Htake in HK |- *.
    now apply truncate_to_take.
  - intros K HK. rewrite Htake in HK.
    now apply truncate_to_stops.
Qed.

Lemma line_metrics_nonneg (text : string) (style : ParagraphStyle) (w : Q) :
  (0 <= Samples.line_metrics text style w)%Q.
Proof.
  unfold Samples.line_metrics. destruct text as [|c r]; [apply Qle_refl |].
  apply Qmult_le_0_compat; [discriminate |].
  unfold Qle. simpl. lia.
Qed.

(** The scenario of section 8: on a page with room for the banner and one
    entry, the document shows the banner and the entry T1, and not T2. *)
Lemma truncation_follows_entry_order_witness :
  (0 < snd (available Samples.small_page 18))%Q /\
  reportlab_works Samples.calm Samples.two_entries /\
  exists doc : Document,
    save_as_pdf_on Samples.small_page 18 Samples.calm Samples.two_entries "."
    = ([PdfBuilt doc; Stdout "Saved PDF: ./rss_printout_20240101_120000.pdf"],
       Returned (Some "./rss_printout_20240101_120000.pdf")) /\
    shown doc
    = flat_map entry_items
        [banner "Guardian World"; Samples.entry "T1" "D1" "S1"].
Proof.
  assert (reportlab_works Samples.calm Samples.two_entries) as Hworks.
  { repeat split; repeat constructor. }
  split; [reflexivity |]. split; [exact Hworks |].
  destruct (truncation_follows_entry_order Samples.small_page 18 Samples.calm
              "Guardian World"
              [Samples.entry "T1" "D1" "S1"; Samples.entry "T2" "D2" "S2"] ".")
    as (doc & Hsave & _).
  { reflexivity. }
  { apply line_metrics_nonneg. }
  { exact Hworks. }
  exists doc. split; [exact Hsave |].
  assert (shown doc
          = match
              events (save_as_pdf_on Samples.small_page 18 Samples.calm
                        Samples.two_entries ".")
            with
            | PdfBuilt d :: _ => shown d
            | _ => []
            end) as ->
    by (unfold Samples.two_entries; rewrite Hsave; reflexivity).
  vm_compute. reflexivity.
Defined.

(** ** Printing and the loop *)

Section CycleFacts.

Lemma subprocess_run_check_cases (env : Env) (argv : list string) :
  match run_command env argv with
  | Exited code =>
      if Z.eqb code 0 then
        subprocess_run_check env argv = ([Spawn argv], Returned tt)
      else
        subprocess_run_check env argv
        = ([Spawn argv],
           Raised (Exn "CalledProcessError"
                     ("Command '[" +:+ show_items argv
                      +:+ "]' returned non-zero exit status "
                      +:+ show_Z code +:+ ".")))
  | NotStarted e => subprocess_run_check env argv = ([Spawn argv], Raised e)
  end.
Proof.
  unfold subprocess_run_check. io.
  destruct (run_command env argv) as [code|e]; [| reflexivity].
  destruct (Z.eqb code 0); reflexivity.
Qed.

(** The cause of a failed submission, if it failed. *)
Lemma print_to_printer_cases (env : Env) (pdf_path printer_name : string) :
  let argv := ["lpr"; "-P"; printer_name; pdf_path] in
  (run_command env argv = Exited 0 /\
   print_to_printer env pdf_path printer_name
   = ([Spawn argv;
       Stdout ("Printed PDF " +:+ pdf_path +:+ " to " +:+ printer_name
               +:+ " successfully.")],
      Returned tt)) \/
  (exists e,
     print_to_printer env pdf_path printer_name
     = ([Spawn argv; Stderr ("Printing failed: " +:+ exn_text e)], Returned tt) /\
     match run_command env argv with
     | Exited code =>
         code <> 0%Z /\
         e = Exn "CalledProcessError"
               ("Command '[" +:+ show_items argv
                +:+ "]' returned non-zero exit status " +:+ show_Z code +:+ ".")
     | NotStarted e' => e = e'
     end).
Proof.
  intros argv. unfold print_to_printer. fold argv.
  pose proof (subprocess_run_check_cases env argv) as H.
  destruct (run_command env argv) as [code|e].
  - destruct (Z.eqb code 0) eqn:E; rewrite H.
    + apply Z.eqb_eq in E. left. split; [now f_equal | reflexivity].
    + apply Z.eqb_neq in E. right. eexists.
      split; [reflexivity |]. split; [exact E | reflexivity].
  - rewrite H. right. exists e. split; reflexivity.
Qed.

Lemma print_to_printer_returns (env : Env) (pdf_path printer_name : string) :
  exists ev,
    print_to_printer env pdf_path printer_name
    = ([Spawn ["lpr"; "-P"; printer_name; pdf_path]; ev], Returned tt)
    /\ exists line, ev = Stdout line \/ ev = Stderr line.
Proof.
  destruct (print_to_printer_cases env pdf_path printer_name)
    as [[_ H]|(e & H & _)]; rewrite H; eexists; split; try reflexivity;
    eauto.
Qed.

Lemma dispatch_none (env : Env) : dispatch env None = ([], Returned tt).
Proof. reflexivity. Qed.

Lemma dispatch_returns (env : Env) (pdf_path : option string) :
  exists t, dispatch env pdf_path = (t, Returned tt) /\ sleeps t = 0%nat.
Proof.
  unfold dispatch.
  destruct (truthy pdf_path); [| eexists; split; reflexivity].
  destruct (print_to_printer_returns env (default "" pdf_path) PRINTER_NAME)
    as (ev & Hp & line & Hev).
  io. rewrite Hp. unfold KEEP_PDF, os_remove. io. simpl.
  destruct (remove_fault env _); eexists; (split; [reflexivity |]);
    destruct Hev as [-> | ->]; reflexivity.
Qed.

Lemma save_as_pdf_returns (env : Env) (entries : list Entry) (dir : string) :
  exists t r,
    save_as_pdf env entries dir = (t, Returned r) /\
    (r = None -> exists line, t = [Stderr line]) /\
    (forall argv, ~ In (Spawn argv) t) /\
    sleeps t = 0%nat.
Proof.
  unfold save_as_pdf.
  destruct (save_as_pdf_on_cases A4 18 env entries dir)
    as [(e & _ & H)|(ds & _ & H)]; rewrite H; do 2 eexists;
    (split; [reflexivity |]); (split; [| split; [| reflexivity]]).
  - eauto.
  - intros argv [|[]]. discriminate.
  - discriminate.
  - intros argv [|[|[]]]; discriminate.
Qed.

Lemma sleeps_app (t t' : list event) :
  sleeps (t ++ t') = (sleeps t + sleeps t')%nat.
Proof.
  induction t as [|ev t IH]; [reflexivity |].
  destruct ev; simpl; rewrite IH; reflexivity.
Qed.

Lemma sleeps_stderr (t : list event) :
  Forall (fun ev => exists line, ev = Stderr line) t -> sleeps t = 0%nat.
Proof. induction 1 as [|ev t [line ->] _ IH]; [reflexivity | exact IH]. Qed.

(** One iteration: the events of its three parts, then the sleep. *)
Lemma cycle_spec (env : Env) :
  exists (entries : list Entry) (t1 t2 t3 : list event) (r : option string),
    gather env = (t1, Returned entries) /\
    save_as_pdf env entries "." = (t2, Returned r) /\
    dispatch env r = (t3, Returned tt) /\
    sleeps (t1 ++ t2 ++ t3) = 0%nat /\
    cycle env
    = (t1 ++ t2 ++ t3
       ++ [Stdout ("Next run in " +:+ show_Z INTERVAL_MINUTES +:+ " minutes...");
           Slept (INTERVAL_MINUTES * 60)],
       Returned tt).
Proof.
  destruct (gather_spec env) as (name & url & feed & t & _ & _ & Ht & Hg).
  destruct (save_as_pdf_returns env (with_banner name (format_entries feed)) ".")
    as (t2 & r & Hs & _ & _ & Hs2).
  destruct (dispatch_returns env r) as (t3 & Hd & Hs3).
  eexists (with_banner name (format_entries feed)), _, t2, t3, r.
  split; [exact Hg |]. split; [exact Hs |]. split; [exact Hd |].
  split.
  - rewrite !sleeps_app, Hs2, Hs3. simpl. now rewrite (sleeps_stderr t Ht).
  - unfold cycle. io. rewrite Hg, Hs, Hd. reflexivity.
Qed.

Lemma cycle_returns (env : Env) : result (cycle env) = Returned tt.
Proof.
  destruct (cycle_spec env) as (? & ? & ? & ? & ? & _ & _ & _ & _ & H).
  now rewrite H.
Qed.

Lemma cycle_sleeps (env : Env) : sleeps (events (cycle env)) = 1%nat.
Proof.
  destruct (cycle_spec env) as (? & t1 & t2 & t3 & ? & _ & _ & _ & Hs & H).
  rewrite H. unfold events. cbn [fst].
  rewrite !app_assoc, sleeps_app, <- !app_assoc, Hs. reflexivity.
Qed.

Lemma loop_returns (envs : list Env) : result (loop envs) = Returned tt.
Proof.
  induction envs as [|env rest IH]; [reflexivity |].
  simpl. io. pose proof (cycle_returns env) as Hc.
  destruct (cycle env) as [t [[]|e]]; [| discriminate].
  destruct (loop rest) as [t' r]. exact IH.
Qed.

Lemma loop_sleeps (envs : list Env) :
  sleeps (events (loop envs)) = length envs.
Proof.
  induction envs as [|env rest IH]; [reflexivity |].
  simpl. io. pose proof (cycle_returns env) as Hc.
  pose proof (cycle_sleeps env) as Hs.
  destruct (cycle env) as [t [[]|e]]; [| discriminate].
  destruct (loop rest) as [t' r]. unfold events in *. cbn [fst] in *.
  rewrite sleeps_app, Hs, IH. reflexivity.
Qed.

End CycleFacts.

(** C6: in every iteration, whatever the fetch gave, the sequence handed to
    [save_as_pdf] starts with the banner, whose title is [Feed Source: ]
    followed by the name of the chosen source and whose date and summary are
    empty, and goes on with the normalised entries in their order. *)
Theorem banner_always_first (env : Env) :
  exists (name url : string) (feed : option FeedParserDict)
         (t1 t2 t3 : list event) (r : option string),
    FEED_SOURCES !! (random_index env mod length FEED_SOURCES)%nat
    = Some (name, url) /\
    result (fetch_feed env url) = Returned feed /\
    gather env = (t1, Returned (banner name :: format_entries feed)) /\
    banner name
    = {| title := "Feed Source: " +:+ name; published := ""; summary := "" |} /\
    save_as_pdf env (banner name :: format_entries feed) "." = (t2, Returned r) /\
    cycle env = (t1 ++ t2 ++ t3, Returned tt).
Proof.
  destruct (gather_spec env) as (name & url & feed & t & Hc & Hf & _ & Hg).
  destruct (cycle_spec env) as (es & t1 & t2 & t3 & r & Hg' & Hs & _ & _ & H).
  rewrite Hg in Hg'. injection Hg' as <- <-.
  rewrite with_banner_cons in Hg, Hs.
  exists name, url, feed. eexists _, t2, _, r.
  split; [exact Hc |]. split; [now rewrite Hf |]. split; [exact Hg |].
  split; [reflexivity |]. split; [exact Hs |]. exact H.
Qed.

(** With the network down the layout still gets the banner, alone. *)
Lemma banner_always_first_witness :
  result (gather Samples.offline) = Returned [banner "Guardian World"] /\
  exists (name : string) (rest : list Entry),
    result (gather Samples.calm) = Returned (banner name :: rest) /\
    length rest = 2%nat.
Proof.
  split; [reflexivity |].
  destruct (banner_always_first Samples.calm)
    as (name & url & feed & t1 & t2 & t3 & r & _ & _ & Hg & _).
  exists name, (format_entries feed). split; [now rewrite Hg |].
  assert (length (format_entries feed)
          = match result (gather Samples.calm) with
            | Returned (_ :: rest) => length rest
            | _ => 0%nat
            end) as -> by (rewrite Hg; reflexivity).
  reflexivity.
Defined.

(** C7: [fetch_feed] always returns: when [feedparser.parse] raises, and
    when it sets its error flag, the result is [None] and one line goes to
    standard error; [format_entries] then gives the empty sequence, the
    layout gets the banner alone, and the iteration runs to its end. *)
Theorem fetch_feed_never_raises (env : Env) (url : string) :
  (exists r, result (fetch_feed env url) = Returned r) /\
  match feedparser_parse env url with
  | Raised e =>
      fetch_feed env url
      = ([Stderr ("Exception fetching feed: " +:+ exn_text e)], Returned None)
  | Returned feed =>
      if bozo feed then
        fetch_feed env url
        = ([Stderr ("Error parsing feed: " +:+ bozo_exception feed)],
           Returned None)
      else fetch_feed env url = ([], Returned (Some feed))
  end /\
  format_entries None = [] /\
  (forall name, with_banner name (format_entries None) = [banner name]) /\
  result (cycle env) = Returned tt.
Proof.
  split.
  { destruct (fetch_feed_returns env url) as (t & r & H & _).
    exists r. now rewrite H. }
  split; [apply fetch_feed_cases |].
  split; [reflexivity |]. split; [reflexivity |]. apply cycle_returns.
Qed.

(** A network failure and a malformed feed. *)
Lemma fetch_feed_never_raises_witness :
  fetch_feed Samples.offline "https://civil.ge/feed"
  = ([Stderr "Exception fetching feed: network unreachable"], Returned None) /\
  fetch_feed Samples.malformed "https://civil.ge/feed"
  = ([Stderr "Error parsing feed: not well-formed"], Returned None) /\
  result (cycle Samples.offline) = Returned tt.
Proof.
  pose proof (fetch_feed_never_raises Samples.offline "https://civil.ge/feed")
    as (_ & H1 & _ & _ & H3).
  pose proof (fetch_feed_never_raises Samples.malformed "https://civil.ge/feed")
    as (_ & H2 & _).
  split; [exact H1 |]. split; [exact H2 | exact H3].
Defined.

(** ** The banner *)

Section BannerFacts.

Lemma occurs_append_r (c : ascii) (a b : string) :
  occurs c b = true -> occurs c (a +:+ b) = true.
Proof.
  intros H. induction a as [|d a IH]; [exact H |].
  change (String d a +:+ b) with (String d (a +:+ b)).
  simpl. rewrite IH. apply orb_true_r.
Qed.

Lemma banner_title_escaped (name : string) :
  escaped (title (banner name)) = escaped name.
Proof.
  unfold banner, title. cbv [String.append]. reflexivity.
Qed.

Lemma occurs_not_escaped (c : ascii) (s : string) :
  markup_significant c = true -> c <> amp -> occurs c s = true ->
  escaped s = false.
Proof.
  intros Hc Hamp Hocc. destruct (escaped s) eqn:E; [| reflexivity].
  rewrite (escaped_no_raw s c E Hc Hamp) in Hocc. discriminate.
Qed.

End BannerFacts.

(** C10: the title of the banner is the text [Feed Source: ] followed by
    the display name as it is, with no escaping: every character of the name
    is in the title, and a name with a raw [<], [>] or quote gives a title
    that is not escaped; whereas the title and the date of each entry that
    [format_entries] builds are escaped. *)
Theorem banner_title_not_escaped (name : string) :
  title (banner name) = "Feed Source: " +:+ name /\
  escaped (title (banner name)) = escaped name /\
  (forall c : ascii, occurs c name = true -> occurs c (title (banner name)) = true) /\
  (forall c : ascii,
     markup_significant c = true -> c <> amp -> occurs c name = true ->
     escaped (title (banner name)) = false) /\
  (forall env rest,
     Forall (accepted env) (banner name :: rest) ->
     exists items,
       item_loop env (banner name :: rest) []
       = ([], Returned (Paragraph ("<b>Feed Source: " +:+ name +:+ "</b>")
                          title_style :: items))) /\
  (forall (b : bool) (bx : string) (raw : list (gmap string string)),
     Forall (fun e => escaped (title e) = true /\ escaped (published e) = true)
       (format_entries
          (Some {| bozo := b; bozo_exception := bx; entries := Some raw |}))).
Proof.
  split; [reflexivity |]. split; [apply banner_title_escaped |].
  split; [intros c; apply occurs_append_r |].
  split.
  { intros c Hc Hamp Hocc. rewrite banner_title_escaped.
    now apply (occurs_not_escaped c). }
  split.
  { intros env rest Hacc. rewrite (item_loop_accepted env _ [] Hacc).
    eexists. reflexivity. }
  intros b bx raw. apply Forall_lookup. intros i e Hi.
  rewrite format_entries_lookup in Hi.
  destruct (raw !! i) as [entry|]; [| discriminate].
  injection Hi as <-. simpl. split; apply escaped_escape.
Qed.

(** A display name with markup in it: the banner's title carries the raw
    [<], the same text as the title of a feed entry would be escaped. *)
Lemma banner_title_not_escaped_witness :
  title (banner "News <b>now") = "Feed Source: News <b>now" /\
  escaped (title (banner "News <b>now")) = false /\
  escape "News <b>now" = "News &lt;b&gt;now".
Proof.
  destruct (banner_title_not_escaped "News <b>now") as (H1 & _ & _ & H4 & _).
  split; [exact H1 |]. split; [| reflexivity].
  apply (H4 lt); [reflexivity | discriminate | reflexivity].
Defined.

(** C8, as the specification states it, fails: when [lpr] exits with status
    1, [print_to_printer] returns [None] as it does on success, so that no
    reading of the returned value tells the failure or its cause. *)
Lemma print_failure_not_returned :
  run_command Samples.jammed ["lpr"; "-P"; "TS9500"; "x.pdf"] = Exited 1 /\
  result (print_to_printer Samples.jammed "x.pdf" "TS9500") = Returned tt /\
  result (print_to_printer Samples.calm "x.pdf" "TS9500") = Returned tt /\
  ~ exists decode : outcome unit -> option exn,
      decode (result (print_to_printer Samples.calm "x.pdf" "TS9500")) = None /\
      exists cause,
        decode (result (print_to_printer Samples.jammed "x.pdf" "TS9500"))
        = Some cause.
Proof.
  split; [reflexivity |]. split; [reflexivity |]. split; [reflexivity |].
  intros (decode & Hok & cause & Hfail).
  change (result (print_to_printer Samples.jammed "x.pdf" "TS9500"))
    with (result (print_to_printer Samples.calm "x.pdf" "TS9500")) in Hfail.
  rewrite Hok in Hfail. discriminate.
Qed.

(** C8, amended: [print_to_printer] always returns [None]; it runs [lpr]
    once, and on a non-zero exit status, or when [lpr] cannot be started, it
    writes [Printing failed: ] and the cause to standard error, and does
    nothing more. *)
Theorem print_to_printer_logs_failure (env : Env)
  (pdf_path printer_name : string) :
  let argv := ["lpr"; "-P"; printer_name; pdf_path] in
  result (print_to_printer env pdf_path printer_name) = Returned tt /\
  (exists ev line,
     events (print_to_printer env pdf_path printer_name) = [Spawn argv; ev] /\
     (ev = Stdout line \/ ev = Stderr line)) /\
  (forall code : Z,
     run_command env argv = Exited code -> code <> 0%Z ->
     events (print_to_printer env pdf_path printer_name)
     = [Spawn argv;
        Stderr ("Printing failed: Command '[" +:+ show_items argv
                +:+ "]' returned non-zero exit status " +:+ show_Z code
                +:+ ".")]) /\
  (forall e : exn,
     run_command env argv = NotStarted e ->
     events (print_to_printer env pdf_path printer_name)
     = [Spawn argv; Stderr ("Printing failed: " +:+ exn_text e)]) /\
  (run_command env argv = Exited 0 ->
   events (print_to_printer env pdf_path printer_name)
   = [Spawn argv;
      Stdout ("Printed PDF " +:+ pdf_path +:+ " to " +:+ printer_name
              +:+ " successfully.")]).
Proof.
  intros argv.
  destruct (print_to_printer_returns env pdf_path printer_name)
    as (ev & Hp & line & Hev).
  split; [now rewrite Hp |].
  split; [exists ev, line; split; [now rewrite Hp | exact Hev] |].
  destruct (print_to_printer_cases env pdf_path printer_name)
    as [[Hrun H]|(e & H & Hrun)]; fold argv in Hrun, H; rewrite H;
    unfold events; cbn [fst].
  - rewrite Hrun. split; [| split].
    + intros code [= <-] Hne. congruence.
    + intros e [=].
    + reflexivity.
  - split; [| split].
    + intros code Hc Hne. rewrite Hc in Hrun. destruct Hrun as [_ ->].
      reflexivity.
    + intros e' He'. rewrite He' in Hrun. now subst.
    + intros H0. rewrite H0 in Hrun. destruct Hrun as [Hne _]. congruence.
Qed.

(** A paper jam: one submission, one line on standard error. *)
Lemma print_to_printer_logs_failure_witness :
  print_to_printer Samples.jammed "x.pdf" "TS9500"
  = ([Spawn ["lpr"; "-P"; "TS9500"; "x.pdf"];
      Stderr ("Printing failed: Command '['lpr', '-P', 'TS9500', 'x.pdf']' "
              +:+ "returned non-zero exit status 1.")],
     Returned tt).
Proof.
  destruct (print_to_printer_logs_failure Samples.jammed "x.pdf" "TS9500")
    as (Hr & _ & Hfail & _).
  specialize (Hfail 1%Z eq_refl ltac:(discriminate)).
  destruct (print_to_printer Samples.jammed "x.pdf" "TS9500") as [t r].
  unfold events, result in *. cbn [fst snd] in *. subst. reflexivity.
Defined.

(** C9: an exception raised inside the [try] block of [save_as_pdf] is
    caught there: [save_as_pdf] writes [Failed to save PDF: ] and the cause
    to standard error and returns [None]; on [None] the iteration neither
    prints nor removes a file, and goes on to its sleep; and no iteration
    ends the loop: after any number of iterations [main] has not raised and
    has slept once per iteration. *)
Theorem layout_failure_is_contained :
  (forall page margin env entries dir e,
     result (save_as_pdf_try page margin env entries (pdf_name env dir))
     = Raised e ->
     save_as_pdf_on page margin env entries dir
     = ([Stderr ("Failed to save PDF: " +:+ exn_text e)], Returned None)) /\
  (forall env entries dir,
     exists r, result (save_as_pdf env entries dir) = Returned r) /\
  (forall env entries t1 t2,
     gather env = (t1, Returned entries) ->
     save_as_pdf env entries "." = (t2, Returned None) ->
     cycle env
     = (t1 ++ t2 ++ [Stdout "Next run in 7 minutes..."; Slept 420],
        Returned tt) /\
     forall ev, In ev (events (cycle env)) ->
       (forall argv, ev <> Spawn argv) /\ (forall path, ev <> Remove path)) /\
  (forall env, result (cycle env) = Returned tt) /\
  (forall envs,
     result (main envs) = Returned tt /\
     sleeps (events (main envs)) = length envs).
Proof.
  split.
  { intros page margin env entries dir e Htry. unfold save_as_pdf_on.
    destruct (save_as_pdf_try_cases page margin env entries (pdf_name env dir))
      as [[e' He]|(ds & _ & He)]; rewrite He in Htry |- *; [| discriminate].
    injection Htry as ->. reflexivity. }
  split.
  { intros env entries dir.
    destruct (save_as_pdf_returns env entries dir) as (t & r & H & _).
    exists r. now rewrite H. }
  split.
  { intros env entries t1 t2 Hg Hs.
    destruct (gather_spec env) as (name & url & feed & t & _ & _ & Ht & Hg').
    rewrite Hg in Hg'. injection Hg' as -> ->.
    destruct (save_as_pdf_returns env (with_banner name (format_entries feed)) ".")
      as (t2' & r & Hs' & Hnone & _).
    rewrite Hs in Hs'. injection Hs' as <- <-.
    destruct (Hnone eq_refl) as [line ->].
    assert (cycle env
            = ((Stdout ("Fetching from: " +:+ url +:+ " (" +:+ name +:+ ")") :: t)
               ++ [Stderr line]
               ++ [Stdout "Next run in 7 minutes..."; Slept 420],
               Returned tt)) as Hc.
    { unfold cycle. io. rewrite Hg, Hs. reflexivity. }
    split; [exact Hc |].
    intros ev Hin. rewrite Hc in Hin. unfold events in Hin. cbn [fst] in Hin.
    rewrite !in_app_iff in Hin. simpl in Hin.
    destruct Hin as [[<-|Hin]|[[<-|[]]|[<-|[<-|[]]]]];
      try (split; discriminate).
    rewrite Forall_forall in Ht. destruct (Ht ev) as [l ->].
    { apply list_elem_of_In, Hin. }
    split; discriminate. }
  split; [apply cycle_returns |].
  intros envs. unfold main. io.
  pose proof (loop_returns envs) as Hr. pose proof (loop_sleeps envs) as Hs.
  destruct (loop envs) as [t r]. split; [exact Hr | exact Hs].
Qed.

(** An output path that cannot be written: the iteration logs the failure,
    runs no [lpr] and sleeps; three such iterations make three sleeps. *)
Lemma layout_failure_is_contained_witness :
  save_as_pdf Samples.readonly [banner "Guardian World"] "."
  = ([Stderr "Failed to save PDF: [Errno 13] Permission denied"], Returned None) /\
  events (cycle Samples.readonly)
  = [Stdout "Fetching from: https://www.theguardian.com/world/rss (Guardian World)";
     Stderr "Failed to save PDF: [Errno 13] Permission denied";
     Stdout "Next run in 7 minutes..."; Slept 420] /\
  result (main [Samples.readonly; Samples.offline; Samples.jammed]) = Returned tt /\
  sleeps (events (main [Samples.readonly; Samples.offline; Samples.jammed]))
  = 3%nat.
Proof.
  destruct layout_failure_is_contained as (Hcatch & _ & Hskip & _ & Hloop).
  split.
  { apply (Hcatch A4 18%Q Samples.readonly [banner "Guardian World"] "."
             (Exn "PermissionError" "[Errno 13] Permission denied")).
    reflexivity. }
  split.
  { destruct (Hskip Samples.readonly
                (banner "Guardian World"
                 :: format_entries (Some Samples.feed_ok))
                [Stdout "Fetching from: https://www.theguardian.com/world/rss (Guardian World)"]
                [Stderr "Failed to save PDF: [Errno 13] Permission denied"])
      as [Hc _]; [reflexivity | reflexivity |].
    rewrite Hc. reflexivity. }
  exact (Hloop [Samples.readonly; Samples.offline; Samples.jammed]).
Defined.

(** * Further properties of the script *)

(** ** More on [html.escape] *)

Section EscapeMore.

Lemma length_append (a b : string) :
  String.length (a +:+ b) = (String.length a + String.length b)%nat.
Proof.
  induction a as [|c a IH]; [reflexivity |].
  change (String c a +:+ b) with (String c (a +:+ b)). simpl. now rewrite IH.
Qed.

Lemma escape_char_length (c : ascii) :
  (1 <= String.length (escape_char c))%nat /\
  (markup_significant c = true -> (4 <= String.length (escape_char c))%nat) /\
  (markup_significant c = false -> escape_char c = String c "").
Proof.
  unfold escape_char, markup_significant.
  destruct (Ascii.eqb c amp); [simpl; repeat split; (lia || discriminate) |].
  destruct (Ascii.eqb c lt); [simpl; repeat split; (lia || discriminate) |].
  destruct (Ascii.eqb c gt); [simpl; repeat split; (lia || discriminate) |].
  destruct (Ascii.eqb c dquote); [simpl; repeat split; (lia || discriminate) |].
  destruct (Ascii.eqb c squote); simpl; repeat split; (lia || discriminate).
Qed.

Lemma escape_step (c : ascii) (r : string) :
  escape (String c r) = escape_char c +:+ escape r.
Proof. now rewrite escape_cons, escape_one. Qed.

Lemma escape_length (s : string) :
  (String.length s <= String.length (escape s))%nat.
Proof.
  induction s as [|c r IH]; [reflexivity |].
  rewrite escape_step, length_append.
  destruct (escape_char_length c) as (H1 & _). simpl. lia.
Qed.

Lemma escape_grows (s : string) (c : ascii) :
  markup_significant c = true -> occurs c s = true ->
  (String.length s < String.length (escape s))%nat.
Proof.
  intros Hc. induction s as [|d r IH]; [discriminate |].
  simpl. intros Hocc. rewrite escape_step, length_append.
  destruct (Ascii.eqb_spec d c) as [->|Hd].
  - destruct (escape_char_length c) as (_ & H4 & _). specialize (H4 Hc).
    pose proof (escape_length r). simpl. lia.
  - simpl in Hocc. specialize (IH Hocc).
    destruct (escape_char_length d) as (H1 & _). simpl. lia.
Qed.

Lemma escape_plain (s : string) :
  (forall c, markup_significant c = true -> occurs c s = false) ->
  escape s = s.
Proof.
  induction s as [|d r IH]; intros Hplain; [reflexivity |].
  rewrite escape_step.
  assert (markup_significant d = false) as Hd.
  { destruct (markup_significant d) eqn:E; [| reflexivity].
    specialize (Hplain d E). simpl in Hplain.
    now rewrite Ascii.eqb_refl in Hplain. }
  destruct (escape_char_length d) as (_ & _ & H). rewrite (H Hd).
  rewrite IH; [reflexivity |].
  intros c Hc. specialize (Hplain c Hc). simpl in Hplain.
  now apply orb_false_iff in Hplain.
Qed.



End EscapeMore.

(** X1: [format_entries] gives no entry for a missing feed and for a feed
    without the key ['entries']; an entry that lacks a field gets the
    default of that field: the title [No title], the date [No date], the
    empty summary; a summary that is there is handed on as it is. *)
Theorem format_entries_defaults (b : bool) (bx : string)
  (raw : list (gmap string string)) :
  format_entries None = [] /\
  format_entries (Some {| bozo := b; bozo_exception := bx; entries := None |})
  = [] /\
  forall (i : nat) (entry : gmap string string),
    raw !! i = Some entry ->
    exists e : Entry,
      format_entries
        (Some {| bozo := b; bozo_exception := bx; entries := Some raw |}) !! i
      = Some e /\
      (entry !! "title" = None -> title e = "No title") /\
      (entry !! "published" = None -> published e = "No date") /\
      (entry !! "summary" = None -> summary e = "") /\
      (forall s, entry !! "summary" = Some s -> summary e = s).
Proof.
  split; [reflexivity |]. split; [reflexivity |].
  intros i entry Hi. rewrite format_entries_lookup, Hi. simpl.
  eexists. split; [reflexivity |]. simpl.
  repeat split.
  - intros ->. reflexivity.
  - intros ->. reflexivity.
  - intros ->. reflexivity.
  - intros s ->. reflexivity.
Qed.

(** An entry with a title only. *)
Lemma format_entries_defaults_witness :
  exists e : Entry,
    format_entries (Some Samples.feed_ok) !! 1%nat = Some e /\
    published e = "No date" /\ summary e = "".
Proof.
  destruct (format_entries_defaults false "" [Samples.raw1; Samples.raw2])
    as (_ & _ & H).
  destruct (H 1%nat Samples.raw2 eq_refl) as (e & He & _ & Hd & Hs & _).
  exists e. split; [exact He |].
  split; [apply Hd | apply Hs]; reflexivity.
Defined.

(** X2: [html.escape] never shortens a text, and it leaves a text as it is
    exactly when the text holds none of the five characters; so
    [format_entries] hands on a plain title unchanged. *)
Theorem escape_identity_iff_plain (s : string) :
  (String.length s <= String.length (escape s))%nat /\
  (escape s = s <->
   forall c : ascii, markup_significant c = true -> occurs c s = false) /\
  forall (b : bool) (bx : string) (raw : list (gmap string string))
         (i : nat) (entry : gmap string string),
    raw !! i = Some entry -> entry !! "title" = Some s ->
    (forall c : ascii, markup_significant c = true -> occurs c s = false) ->
    title <$> format_entries
                (Some {| bozo := b; bozo_exception := bx; entries := Some raw |})
              !! i
    = Some s.
Proof.
  split; [apply escape_length |]. split; [split |].
  - intros Heq c Hc. destruct (occurs c s) eqn:Hocc; [| reflexivity].
    pose proof (escape_grows s c Hc Hocc) as Hlt. rewrite Heq in Hlt. lia.
  - apply escape_plain.
  - intros b bx raw i entry Hi Ht Hplain.
    rewrite format_entries_lookup, Hi. simpl. rewrite Ht. simpl.
    now rewrite escape_plain.
Qed.



(** X4: the texts of a feed cannot put markup into the title and date
    paragraphs: for the entries [format_entries] builds, the loop of
    [save_as_pdf] makes the title paragraph of an escaped text between the
    bold tags and the date paragraph of an escaped text, while the summary
    paragraph gets the summary of the feed as it is. *)
Theorem feed_text_cannot_inject_markup (env : Env) (b : bool) (bx : string)
  (raw : list (gmap string string)) :
  let entries :=
    format_entries
      (Some {| bozo := b; bozo_exception := bx; entries := Some raw |}) in
  Forall (accepted env) entries ->
  exists items : list Flowable,
    item_loop env entries [] = ([], Returned items) /\
    forall (i : nat) (entry : gmap string string),
      raw !! i = Some entry ->
      exists t d : string,
        items !! (4 * i)%nat
        = Some (Paragraph ("<b>" +:+ t +:+ "</b>") title_style) /\
        escaped t = true /\
        items !! (4 * i + 1)%nat = Some (Paragraph d date_style) /\
        escaped d = true /\
        items !! (4 * i + 2)%nat
        = Some (Paragraph (default "" (entry !! "summary")) summary_style).
Proof.
  intros entries Hacc.
  exists (flat_map entry_items entries).
  split; [apply (item_loop_accepted env entries [] Hacc) |].
  intros i entry Hi.
  assert (entries !! i
          = Some {| title := escape (default "No title" (entry !! "title"));
                    published := escape (default "No date" (entry !! "published"));
                    summary := default "" (entry !! "summary") |}) as He.
  { unfold entries. now rewrite format_entries_lookup, Hi. }
  exists (escape (default "No title" (entry !! "title"))),
         (escape (default "No date" (entry !! "published"))).
  rewrite <- (Nat.add_0_r (4 * i)) at 1.
  rewrite !(flat_map_items_lookup entries i _ _ He) by lia.
  repeat split; apply escaped_escape.
Qed.

(** The title of the first sample entry, with its markup escaped. *)
Lemma feed_text_cannot_inject_markup_witness :
  exists items : list Flowable,
    item_loop Samples.calm (format_entries (Some Samples.feed_ok)) []
    = ([], Returned items) /\
    items !! 0%nat
    = Some (Paragraph "<b>Rain &amp; &lt;wind&gt;</b>" title_style) /\
    items !! 2%nat = Some (Paragraph "Storms <i>expected</i>." summary_style).
Proof.
  destruct (feed_text_cannot_inject_markup Samples.calm false ""
              [Samples.raw1; Samples.raw2]) as (items & Hloop & _).
  { apply Forall_forall. intros e _. repeat split. }
  exists items. split; [exact Hloop |].
  assert (Returned items
          = result (item_loop Samples.calm
                      (format_entries (Some Samples.feed_ok)) []))
    as Hi by (unfold Samples.feed_ok; rewrite Hloop; reflexivity).
  vm_compute in Hi. injection Hi as ->. split; reflexivity.
Defined.

(** ** More on the iteration *)

Section CycleMore.

Lemma entry_items_not_placeholder (entries : list Entry) (f : Flowable) :
  In f (flat_map entry_items entries) -> f <> no_entries.
Proof.
  rewrite in_flat_map. intros (e & _ & Hf). simpl in Hf.
  destruct Hf as [<-|[<-|[<-|[<-|[]]]]]; discriminate.
Qed.

Lemma pdf_name_truthy (env : Env) (dir : string) :
  truthy (Some (pdf_name env dir)) = true.
Proof. unfold pdf_name. destruct dir; reflexivity. Qed.

Lemma item_loop_rejected (env : Env) (entries : list Entry)
  (acc : list Flowable) :
  Exists (fun e => ~ accepted env e) entries ->
  exists e, item_loop env entries acc = ([], Raised e).
Proof.
  intros H. revert acc.
  induction entries as [|entry rest IH]; intros acc; [inversion H |].
  simpl. unfold new_Paragraph. io.
  destruct (paragraph_fault env ("<b>" +:+ title entry +:+ "</b>")) as [e|] eqn:Ht;
    simpl; [eauto |].
  destruct (paragraph_fault env (published entry)) as [e|] eqn:Hp;
    simpl; [eauto |].
  destruct (paragraph_fault env (summary entry)) as [e|] eqn:Hs;
    simpl; [eauto |].
  apply Exists_cons in H as [Hhead|Htail].
  - exfalso. apply Hhead. repeat split; assumption.
  - destruct (IH Htail (acc ++ entry_items entry)) as [e He].
    unfold entry_items in He. rewrite He. eauto.
Qed.

Lemma save_as_pdf_rejected (env : Env) (entries : list Entry) (dir : string) :
  Exists (fun e => ~ accepted env e) entries ->
  exists e,
    save_as_pdf env entries dir
    = ([Stderr ("Failed to save PDF: " +:+ exn_text e)], Returned None).
Proof.
  intros H. destruct (item_loop_rejected env entries [] H) as [e He].
  unfold save_as_pdf, save_as_pdf_on, save_as_pdf_try, available, A4.
  destruct (stylesheet_fault env) as [e0|]; io; simpl; [eauto |].
  rewrite He. eauto.
Qed.

Lemma dispatch_path (env : Env) (c : ascii) (rest : string) :
  let path := String c rest in
  dispatch env (Some path)
  = (events (print_to_printer env path PRINTER_NAME)
     ++ [Remove path;
         match remove_fault env path with
         | Some e => Stderr ("Failed to delete PDF: " +:+ exn_text e)
         | None => Stdout ("Deleted PDF: " +:+ path)
         end],
     Returned tt).
Proof.
  intros path. subst path. unfold dispatch. cbn [truthy].
  change (default "" (Some (String c rest))) with (String c rest).
  destruct (print_to_printer_returns env (String c rest) PRINTER_NAME)
    as (ev & Hp & _).
  io. rewrite Hp. unfold KEEP_PDF, os_remove, events. io. simpl.
  destruct (remove_fault env (String c rest)); reflexivity.
Qed.

End CycleMore.

(** X5: [main] never prints the placeholder [No entries found.]: the
    sequence it hands to [save_as_pdf] is never empty, as the banner is
    always there, so the item list is the items of the entries and the
    placeholder is not among them. *)
Theorem placeholder_never_reached_from_main (env : Env) :
  exists entries : list Entry,
    result (gather env) = Returned entries /\
    entries <> [] /\
    item_list_of entries = flat_map entry_items entries /\
    ~ In no_entries (item_list_of entries) /\
    length (item_list_of entries) = (4 * length entries)%nat.
Proof.
  destruct (gather_spec env) as (name & url & feed & t & _ & _ & _ & Hg).
  rewrite with_banner_cons in Hg.
  exists (banner name :: format_entries feed).
  split; [now rewrite Hg |]. split; [discriminate |].
  rewrite item_list_of_cons. split; [reflexivity |].
  split; [| apply flat_map_items_length].
  intros Hin. now apply entry_items_not_placeholder in Hin.
Qed.

(** X6: a fetch that fails does not stop the printing: when [fetch_feed]
    gives [None] for the chosen source and reportlab works, the iteration
    lays out the banner alone, writes the file and sends it to the
    printer. *)
Theorem failed_fetch_still_prints (env : Env) (name url : string) :
  FEED_SOURCES !! (random_index env mod length FEED_SOURCES)%nat
  = Some (name, url) ->
  result (fetch_feed env url) = Returned None ->
  reportlab_works env [banner name] ->
  result (gather env) = Returned [banner name] /\
  exists doc : Document,
    In (PdfBuilt doc) (events (cycle env)) /\
    filename (template doc) = pdf_name env "." /\
    In (Spawn ["lpr"; "-P"; "TS9500"; pdf_name env "."]) (events (cycle env)).
Proof.
  intros Hc Hf Hworks.
  destruct (gather_spec env) as (name' & url' & feed & t & Hc' & Hf' & _ & Hg).
  rewrite Hc in Hc'. injection Hc' as <- <-.
  rewrite Hf' in Hf. injection Hf as ->.
  change (with_banner name (format_entries None)) with [banner name] in Hg.
  split; [now rewrite Hg |].
  destruct (save_as_pdf_on_works A4 18 env [banner name] "." Hworks)
    as (ds & _ & Hs).
  destruct (print_to_printer_returns env (pdf_name env ".") PRINTER_NAME)
    as (ev & Hp & _).
  pose proof (pdf_name_truthy env ".") as Htruthy.
  destruct (pdf_name env ".") as [|c rest] eqn:Hname; [discriminate |].
  pose proof (dispatch_path env c rest) as Hd. cbv zeta in Hd.
  rewrite Hp in Hd. unfold events in Hd. cbn [fst] in Hd.
  eexists. unfold cycle. io. rewrite Hg. unfold save_as_pdf.
  rewrite Hs, Hd. unfold events. cbn [fst].
  split; [| split].
  - apply in_or_app. right. left. reflexivity.
  - reflexivity.
  - apply in_or_app. right. simpl. auto.
Qed.

(** With the network down, the banner of the chosen source is printed. *)
Lemma failed_fetch_still_prints_witness :
  result (gather Samples.offline) = Returned [banner "Guardian World"] /\
  In (Spawn ["lpr"; "-P"; "TS9500"; "./rss_printout_20240101_120000.pdf"])
    (events (cycle Samples.offline)).
Proof.
  destruct (failed_fetch_still_prints Samples.offline "Guardian World"
              "https://www.theguardian.com/world/rss")
    as (Hg & doc & _ & _ & Hspawn).
  { reflexivity. }
  { reflexivity. }
  { repeat split; repeat constructor. }
  split; [exact Hg | exact Hspawn].
Defined.

(** X7: once a file is written, the iteration runs [lpr] on it for the
    printer [TS9500] and then removes that same file, whether or not the
    printing worked; a removal that fails is written to standard error and
    the block still ends normally. *)
Theorem file_removed_whatever_printing_did (env : Env) (c : ascii)
  (rest : string) :
  let path := String c rest in
  exists ev : event,
    dispatch env (Some path)
    = ([Spawn ["lpr"; "-P"; "TS9500"; path]; ev; Remove path;
        match remove_fault env path with
        | Some e => Stderr ("Failed to delete PDF: " +:+ exn_text e)
        | None => Stdout ("Deleted PDF: " +:+ path)
        end],
       Returned tt) /\
    (ev = Stdout ("Printed PDF " +:+ path +:+ " to TS9500 successfully.") \/
     exists e, ev = Stderr ("Printing failed: " +:+ exn_text e)).
Proof.
  intros path. pose proof (dispatch_path env c rest) as Hd. cbv zeta in Hd.
  fold path in Hd. rewrite Hd.
  destruct (print_to_printer_cases env path PRINTER_NAME)
    as [[_ H]|(e & H & _)]; rewrite H; unfold events; cbn [fst];
    eexists; (split; [reflexivity |]); eauto.
Qed.

(** The spooler fails and the file cannot be removed: both are logged. *)
Lemma file_removed_whatever_printing_did_witness :
  dispatch Samples.locked (Some "./x.pdf")
  = ([Spawn ["lpr"; "-P"; "TS9500"; "./x.pdf"];
      Stderr ("Printing failed: Command '['lpr', '-P', 'TS9500', './x.pdf']' "
              +:+ "returned non-zero exit status 1.");
      Remove "./x.pdf";
      Stderr "Failed to delete PDF: [Errno 1] Operation not permitted"],
     Returned tt).
Proof.
  destruct (file_removed_whatever_printing_did Samples.locked "." "/x.pdf")
    as (ev & Hd & _).
  cbv zeta in Hd.
  assert (Some ev = nth_error (events (dispatch Samples.locked (Some "./x.pdf"))) 1)
    as Hev by (rewrite Hd; reflexivity).
  vm_compute in Hev. injection Hev as ->. exact Hd.
Defined.

(** X8: [save_as_pdf] either writes one file and returns its name, which is
    the directory, [/rss_printout_], the timestamp and [.pdf], on an A4 page
    with margins of 18 points, or writes no file, puts one line on standard
    error and returns [None]; the name it returns counts as true in
    [if pdf_path]. *)
Theorem save_as_pdf_file_iff_name (env : Env) (entries : list Entry)
  (dir : string) :
  let p := dir +:+ "/rss_printout_" +:+ now env +:+ ".pdf" in
  truthy (Some p) = true /\
  ((exists doc : Document,
      save_as_pdf env entries dir
      = ([PdfBuilt doc; Stdout ("Saved PDF: " +:+ p)], Returned (Some p)) /\
      template doc
      = {| filename := p; pagesize := A4; leftMargin := 18; rightMargin := 18;
           topMargin := 18; bottomMargin := 18 |}) \/
   (exists e : exn,
      save_as_pdf env entries dir
      = ([Stderr ("Failed to save PDF: " +:+ exn_text e)], Returned None))).
Proof.
  intros p. split; [apply (pdf_name_truthy env dir) |].
  unfold save_as_pdf.
  destruct (save_as_pdf_on_cases A4 18 env entries dir)
    as [(e & _ & H)|(ds & _ & H)]; rewrite H.
  - right. exists e. reflexivity.
  - left. eexists. split; reflexivity.
Qed.

(** X9: every iteration, whatever fails in it, starts by naming a source of
    [FEED_SOURCES] and ends with the line [Next run in 7 minutes...] and a
    sleep of 420 seconds, with no other sleep in between. *)
Theorem every_iteration_sleeps_seven_minutes (env : Env) :
  exists (name url : string) (mid : list event),
    In (name, url) FEED_SOURCES /\
    cycle env
    = (Stdout ("Fetching from: " +:+ url +:+ " (" +:+ name +:+ ")")
       :: mid ++ [Stdout "Next run in 7 minutes..."; Slept 420],
       Returned tt) /\
    sleeps mid = 0%nat.
Proof.
  destruct (gather_spec env) as (name & url & feed & t & Hc & _ & _ & Hg).
  destruct (cycle_spec env) as (es & t1 & t2 & t3 & r & Hg' & _ & _ & Hs & H).
  rewrite Hg in Hg'. injection Hg' as <- <-.
  exists name, url, (t ++ t2 ++ t3).
  split; [apply list_elem_of_In, (list_elem_of_lookup_2 _ _ _ Hc) |].
  split.
  - rewrite H. simpl. now rewrite <- !app_assoc.
  - exact Hs.
Qed.

(** X10: one text that reportlab does not take as markup costs the whole
    page: when the constructor of a paragraph raises for some entry,
    [save_as_pdf] writes no file, puts one line on standard error and
    returns [None]. *)
Theorem rejected_markup_suppresses_page (env : Env) (entries : list Entry)
  (dir : string) :
  Exists (fun e => ~ accepted env e) entries ->
  exists e : exn,
    save_as_pdf env entries dir
    = ([Stderr ("Failed to save PDF: " +:+ exn_text e)], Returned None).
Proof. apply save_as_pdf_rejected. Qed.

(** The second of three entries has a summary that is rejected. *)
Lemma rejected_markup_suppresses_page_witness :
  save_as_pdf Samples.picky
    [banner "Civil Georgia"; Samples.entry "T1" "D1" "<p>unclosed";
     Samples.entry "T2" "D2" "S2"] "."
  = ([Stderr "Failed to save PDF: Parse error: saw </para> instead of </p>"],
     Returned None).
Proof.
  destruct (rejected_markup_suppresses_page Samples.picky
              [banner "Civil Georgia"; Samples.entry "T1" "D1" "<p>unclosed";
               Samples.entry "T2" "D2" "S2"] ".") as (e & He).
  { apply Exists_cons_tl, Exists_cons_hd. intros (_ & _ & H). discriminate H. }
  rewrite He.
  assert (Some (Stderr ("Failed to save PDF: " +:+ exn_text e))
          = head (events (save_as_pdf Samples.picky
                    [banner "Civil Georgia";
                     Samples.entry "T1" "D1" "<p>unclosed";
                     Samples.entry "T2" "D2" "S2"] ".")))
    as Hh by (rewrite He; reflexivity).
  vm_compute in Hh. injection Hh as Hh.
  change (exn_text e = "Parse error: saw </para> instead of </p>") in Hh.
  rewrite Hh. reflexivity.
Defined.

(** X11: a feed on which the parser sets its error flag is dropped whole,
    whatever entries it holds: the iteration goes on with the banner alone
    and one line on standard error. *)
Theorem flagged_feed_is_dropped (env : Env) (name url : string)
  (feed : FeedParserDict) :
  FEED_SOURCES !! (random_index env mod length FEED_SOURCES)%nat
  = Some (name, url) ->
  feedparser_parse env url = Returned feed ->
  bozo feed = true ->
  gather env
  = ([Stdout ("Fetching from: " +:+ url +:+ " (" +:+ name +:+ ")");
      Stderr ("Error parsing feed: " +:+ bozo_exception feed)],
     Returned [banner name]).
Proof.
  intros Hc Hparse Hbozo.
  pose proof (fetch_feed_cases env url) as Hf. rewrite Hparse, Hbozo in Hf.
  unfold gather, random_choice. rewrite Hc. io. rewrite Hf. reflexivity.
Qed.

(** A flagged feed that holds an entry. *)
Lemma flagged_feed_is_dropped_witness :
  entries Samples.feed_bozo = Some [Samples.raw1] /\
  gather Samples.malformed
  = ([Stdout "Fetching from: https://www.theguardian.com/world/rss (Guardian World)";
      Stderr "Error parsing feed: not well-formed"],
     Returned [banner "Guardian World"]).
Proof.
  split; [reflexivity |].
  exact (flagged_feed_is_dropped Samples.malformed "Guardian World"
           "https://www.theguardian.com/world/rss" Samples.feed_bozo
           eq_refl eq_refl eq_refl).
Defined.
